(** * bituin: the MicroScript package manager (src/main.go)

    A shallow embedding of the Go program: the regular expression the
    runner uses on [bituin.toml], the command functions of [main.go] over
    an interface of operating-system calls, and an in-memory file system
    that instantiates the interface. *)

From Stdlib Require Import ZArith Ascii String Lia.
From stdpp Require Import base option strings list gmap.

Local Open Scope Z_scope.

(** ** Bytes and strings

    A Go [string] is a sequence of bytes; [string] of [ascii] is the same
    thing. *)

Definition DQ : ascii := "034".
Definition LF : string := String "010" EmptyString.
Definition ESC : string := String "027" EmptyString.
Definition quoted (s : string) : string := String DQ s +:+ String DQ EmptyString.

(** [strings.Contains s (string c)] for a single byte. *)
Fixpoint contains_byte (c : ascii) (s : string) : bool :=
  match s with
  | EmptyString => false
  | String d s' => if Ascii.eqb c d then true else contains_byte c s'
  end.

(** ** The regular expression [main_file\s*=\s*Q([^Q]+)Q]

    Here and below [Q] stands for the double quote, byte 34.
    [regexp.MustCompile] is called on this one pattern only
    (main.go:165 and main.go:173), so the matcher is written for it. Go
    matches rune by rune and the matcher byte by byte: the bytes the
    pattern names are ASCII and no byte of a longer rune is, so the two
    find the same matches. At a given start the pattern has at most one
    match (lemma [match_here_Some] below), so leftmost-first and greedy
    have nothing to choose between. *)

Module Regexp.

(** Perl class [\s] of Go's regexp/syntax: tab, newline, form feed,
    carriage return and space. *)
Definition is_space (c : ascii) : bool :=
  (Ascii.eqb c "009" || Ascii.eqb c "010" || Ascii.eqb c "012"
   || Ascii.eqb c "013" || Ascii.eqb c " ")%bool.

(** The literal prefix of the pattern. *)
Definition literal : string := "main_file".

Fixpoint trim_prefix (p s : string) : option string :=
  match p with
  | EmptyString => Some s
  | String a p' =>
      match s with
      | String b s' => if Ascii.eqb a b then trim_prefix p' s' else None
      | EmptyString => None
      end
  end.

(** [\s*]: greedy, and nothing that follows it in the pattern is a space. *)
Fixpoint skip_space (s : string) : string :=
  match s with
  | String c s' => if is_space c then skip_space s' else s
  | EmptyString => EmptyString
  end.

(** [[^Q]*]: the longest run of bytes other than the double quote, and what
    follows it. A negated class matches newline too (flag ClassNL). *)
Fixpoint span_unquoted (s : string) : string * string :=
  match s with
  | String c s' =>
      if Ascii.eqb c DQ then (EmptyString, s)
      else let '(run, rest) := span_unquoted s' in (String c run, rest)
  | EmptyString => (EmptyString, EmptyString)
  end.

(** [([^Q]+)Q]: the capture and the text after the closing quote. *)
Definition capture (s : string) : option (string * string) :=
  match span_unquoted s with
  | (String c run, String _ rest) => Some (String c run, rest)
  | _ => None
  end.

(** [\s*Q([^Q]+)Q] *)
Definition open_quote (s : string) : option (string * string) :=
  match skip_space s with
  | String c r => if Ascii.eqb c DQ then capture r else None
  | EmptyString => None
  end.

(** [\s*=\s*Q([^Q]+)Q] *)
Definition assign (s : string) : option (string * string) :=
  match skip_space s with
  | String c r => if Ascii.eqb c "=" then open_quote r else None
  | EmptyString => None
  end.

(** A match of the whole pattern anchored at the start of [s]: the text of
    group 1 and the text after the match. *)
Definition match_here (s : string) : option (string * string) :=
  match trim_prefix literal s with
  | Some r => assign r
  | None => None
  end.

(** The first [n] bytes of [s]. *)
Fixpoint take_bytes (n : nat) (s : string) : string :=
  match n, s with
  | S n', String c s' => String c (take_bytes n' s')
  | _, _ => EmptyString
  end.

(** One match: the text of group 0 and of group 1. *)
Record submatch := { whole : string; group1 : string }.

(** The leftmost match in [s] (what [doExecute] finds from the current
    search position): the text before it, the match, the text after it. *)
Fixpoint search (s : string) : option (string * submatch * string) :=
  match match_here s with
  | Some (cap, rest) =>
      Some (EmptyString,
            {| whole := take_bytes (String.length s - String.length rest) s;
               group1 := cap |},
            rest)
  | None =>
      match s with
      | EmptyString => None
      | String c s' =>
          match search s' with
          | Some (before, m, rest) => Some (String c before, m, rest)
          | None => None
          end
      end
  end.

(** [re.FindStringSubmatch]: [None] stands for the nil slice (length 0),
    [Some m] for the slice [[whole m; group1 m]]. *)
Definition FindStringSubmatch (s : string) : option submatch :=
  match search s with
  | Some (_, m, _) => Some m
  | None => None
  end.

(** *** Template expansion ([Regexp.expand], [extract])

    A name is a run of letters, digits and underscores. Go decodes runes
    and asks [unicode.IsLetter] and [unicode.IsDigit], whose tables are not
    part of main.go; here the ASCII letters and digits are name bytes and a
    byte above 127 is not. The two agree on every template in which no
    dollar sign is followed, directly, after an opening brace or after
    ASCII name bytes, by a byte above 127: on templates without a dollar
    sign, where nothing is expanded, and on ASCII templates. The statements
    below that name the text written for a target take a target without
    dollar sign, or a given ASCII one. *)
Definition is_digit (c : ascii) : bool :=
  let n := nat_of_ascii c in ((48 <=? n)%nat && (n <=? 57)%nat)%bool.

Definition is_name_byte (c : ascii) : bool :=
  let n := nat_of_ascii c in
  (is_digit c || ((65 <=? n)%nat && (n <=? 90)%nat)
   || ((97 <=? n)%nat && (n <=? 122)%nat) || Ascii.eqb c "_")%bool.

Fixpoint span_name (s : string) : string * string :=
  match s with
  | String c s' =>
      if is_name_byte c
      then let '(name, rest) := span_name s' in (String c name, rest)
      else (EmptyString, s)
  | EmptyString => (EmptyString, EmptyString)
  end.

(** The number a name denotes, or -1: the loop of [extract] gives up on a
    byte that is not a digit and once the number has reached 1e8. *)
Fixpoint parse_num (name : string) (num : Z) : Z :=
  match name with
  | EmptyString => num
  | String c name' =>
      if (negb (is_digit c) || (100000000 <=? num))%bool then -1
      else parse_num name' (num * 10 + (Z.of_nat (nat_of_ascii c) - 48))
  end.

Definition name_num (name : string) : Z :=
  match name with
  | String c (String _ _) => if Ascii.eqb c "0" then -1 else parse_num name 0
  | _ => parse_num name 0
  end.

(** [extract str]: the name, its number and the rest of the template, for a
    leading [name] or [{name}]; [None] when malformed. *)
Definition extract (str : string) : option (string * Z * string) :=
  let '(brace, body) :=
    match str with
    | String c r => if Ascii.eqb c "{" then (true, r) else (false, str)
    | EmptyString => (false, str)
    end in
  match span_name body with
  | (EmptyString, _) => None
  | (name, after) =>
      if brace
      then match after with
           | String c rest =>
               if Ascii.eqb c "}" then Some (name, name_num name, rest) else None
           | EmptyString => None
           end
      else Some (name, name_num name, after)
  end.

(** [strings.Cut] of the template at its first dollar sign. *)
Fixpoint cut_dollar (s : string) : option (string * string) :=
  match s with
  | EmptyString => None
  | String c s' =>
      if Ascii.eqb c "$" then Some (EmptyString, s')
      else match cut_dollar s' with
           | Some (before, after) => Some (String c before, after)
           | None => None
           end
  end.

(** The text a reference stands for. The pattern has groups 0 and 1 and no
    named group ([subexpNames] is two empty names), so every other number
    and every name gives the empty text. *)
Definition group_text (m : submatch) (num : Z) : string :=
  if num =? 0 then whole m else if num =? 1 then group1 m else EmptyString.

(** [expand]: each round of the loop consumes the [$] it cut at, so the
    length of the template bounds the number of rounds. *)
Fixpoint expand_loop (rounds : nat) (template : string) (m : submatch) : string :=
  match rounds with
  | O => template
  | S k =>
      match cut_dollar template with
      | None => template
      | Some (before, after) =>
          before +:+
          match after with
          | String c r =>
              if Ascii.eqb c "$" then String "$" (expand_loop k r m)
              else match extract after with
                   | None => String "$" (expand_loop k after m)
                   | Some (_, num, rest) => group_text m num +:+ expand_loop k rest m
                   end
          | EmptyString => String "$" EmptyString
          end
      end
  end.

Definition expand (template : string) (m : submatch) : string :=
  expand_loop (String.length template) template m.

(** [re.ReplaceAllString src repl] ([replaceAll]): every match, found left
    to right from the end of the previous one, is replaced by the expanded
    template. A match is never empty, so the length of [src] bounds the
    number of rounds. *)
Fixpoint replace_loop (rounds : nat) (src repl : string) : string :=
  match rounds with
  | O => src
  | S k =>
      match search src with
      | None => src
      | Some (before, m, rest) =>
          before +:+ expand repl m +:+ replace_loop k rest repl
      end
  end.

Definition ReplaceAllString (src repl : string) : string :=
  replace_loop (String.length src) src repl.

End Regexp.

(** ** The operating system, as main.go sees it

    A Go [error] value: its text, and whether [os.IsNotExist] holds of it.
    A nil error is [None]. *)
Record error := { Error : string; not_exist : bool }.

Definition IsNotExist (err : option error) : bool :=
  match err with
  | Some e => not_exist e
  | None => false
  end.

(** The calls of packages os, os/exec, path/filepath and time that main.go
    makes, over a type of worlds (the file system the process runs in).
    [Stat] keeps the error only: main.go discards the FileInfo everywhere.
    [CombinedOutput w name args] stands for
    [exec.Command(name, args...).CombinedOutput()]; the child may change the
    world. [Seconds] is the text [%.3f] prints for the elapsed seconds. *)
Class OS (World : Type) := {
  Getwd : World -> string * option error;
  Stat : World -> string -> option error;
  ReadFile : World -> string -> string * option error;
  WriteFile : World -> string -> string -> World * option error;
  MkdirAll : World -> string -> World * option error;
  CombinedOutput : World -> string -> list string -> World * string * option error;
  Join : list string -> string;
  Base : string -> string;
  Seconds : World -> string
}.

(** A file that was written without error reads back as written. *)
Definition read_after_write {World} `{OS World} : Prop :=
  forall (w w' : World) (path data : string),
    WriteFile w path data = (w', None) -> ReadFile w' path = (data, None).

(** ** Commands

    A command runs in a world and a standard output (the texts printed so
    far, oldest first); it either goes on with a value or has called
    [os.Exit]. *)
Record state (World : Type) := State { world : World; stdout : list string }.
Arguments State {World} _ _.
Arguments world {World} _.
Arguments stdout {World} _.

Inductive step (A : Type) : Type :=
  | Next (a : A)
  | Exit (code : Z).
Arguments Next {A} _.
Arguments Exit {A} _.

Definition Cmd (World A : Type) : Type := state World -> step A * state World.

Definition cmd_ret {World A} (a : A) : Cmd World A := fun st => (Next a, st).

Definition cmd_bind {World A B} (c : Cmd World A) (k : A -> Cmd World B) : Cmd World B :=
  fun st =>
    match c st with
    | (Next a, st') => k a st'
    | (Exit code, st') => (Exit code, st')
    end.

Notation "'do' x <- c ; k" := (cmd_bind c (fun x => k))
  (at level 10, x pattern, c at level 100, k at level 200).
Notation "c ;; k" := (cmd_bind c (fun _ => k))
  (at level 100, k at level 200, right associativity).

(** The exit status of a finished process: 0 when [main] returns. *)
Definition exit_status {A} (r : step A) : Z :=
  match r with
  | Next _ => 0
  | Exit code => code
  end.

(** A process starts with nothing printed. *)
Definition start {World} (w : World) : state World := State w [].

Section Program.
Context {World : Type} `{OS World}.

Definition os_Exit {A} (code : Z) : Cmd World A := fun st => (Exit code, st).

(** [fmt.Print]; [fmt.Printf] is [fmt_Print] of the formatted text. *)
Definition fmt_Print (s : string) : Cmd World unit :=
  fun st => (Next tt, State (world st) (stdout st ++ [s])).

Definition fmt_Println (s : string) : Cmd World unit := fmt_Print (s +:+ LF).

Definition os_Getwd : Cmd World (string * option error) :=
  fun st => (Next (Getwd (world st)), st).

Definition os_Stat (path : string) : Cmd World (option error) :=
  fun st => (Next (Stat (world st) path), st).

Definition os_ReadFile (path : string) : Cmd World (string * option error) :=
  fun st => (Next (ReadFile (world st) path), st).

Definition os_WriteFile (path data : string) : Cmd World (option error) :=
  fun st => let '(w, err) := WriteFile (world st) path data in
            (Next err, State w (stdout st)).

Definition os_MkdirAll (path : string) : Cmd World (option error) :=
  fun st => let '(w, err) := MkdirAll (world st) path in
            (Next err, State w (stdout st)).

Definition cmd_CombinedOutput (name : string) (args : list string)
  : Cmd World (string * option error) :=
  fun st => let '(w, output, err) := CombinedOutput (world st) name args in
            (Next (output, err), State w (stdout st)).

(** [time.Since(startTime).Seconds()] under [%.3f]. *)
Definition elapsed_Seconds : Cmd World string :=
  fun st => (Next (Seconds (world st)), st).

(** *** Constants (main.go:19-41) *)
Definition VERSION : string := "v0.1.0".
Definition AUTHOR : string := "Cyril John Magayaga".
Definition PREVIEW_FLAG : string := "--preview".

Definition NEW : string := "new".
Definition INIT : string := "init".
Definition RUN : string := "run".
Definition ADD : string := "add".
Definition HELP : string := "help".
Definition VERSION_CMD : string := "version".
Definition AUTHOR_CMD : string := "author".

Definition MAIN_MICROSCRIPT : string :=
  "function main() {" +:+ LF +:+
  "    console.write(" +:+ quoted "Hello, World!" +:+ ");" +:+ LF +:+
  "}" +:+ LF +:+
  LF +:+
  "main();".

(** main.go:43-47 *)
Definition getBituinToml (projectName : string) : string :=
  "[package]" +:+ LF +:+
  "name = " +:+ quoted projectName +:+ LF +:+
  "main_file = " +:+ quoted "src/main.microscript".

Definition green (s : string) : string := ESC +:+ "[32m" +:+ s +:+ ESC +:+ "[0m".
Definition blue (s : string) : string := ESC +:+ "[34m" +:+ s +:+ ESC +:+ "[0m".
Definition grey (s : string) : string := ESC +:+ "[90m" +:+ s +:+ ESC +:+ "[0m".
Definition red (s : string) : string := ESC +:+ "[91m" +:+ s +:+ ESC +:+ "[0m".

(** The nine lines of main.go:49-59, as [fmt.Println] prints them. *)
Definition usage_text : list string :=
  [ green "Usage:" +:+ LF;
    "  " +:+ blue "new" +:+ " [project_name]  - Create a new bituin package in a new directory" +:+ LF;
    "  " +:+ blue "init" +:+ " [project_name] - Create a new bituin package in an existing directory" +:+ LF;
    "  " +:+ blue "add" +:+ " [filename]      - Create a new MicroScript source file" +:+ LF;
    "  " +:+ blue "run" +:+ " [--preview] [filename] - Run the current project (optionally in preview mode)" +:+ LF;
    LF +:+ green "Options:" +:+ LF;
    "  " +:+ blue "help" +:+ "             - Show this help message" +:+ LF;
    "  " +:+ blue "version" +:+ "          - Show version information" +:+ LF;
    "  " +:+ blue "author" +:+ "           - Show author information" +:+ LF ].

Fixpoint print_all (lines : list string) : Cmd World unit :=
  match lines with
  | [] => cmd_ret tt
  | l :: rest => fmt_Print l;; print_all rest
  end.

Definition printUsage : Cmd World unit := print_all usage_text.

(** main.go:61-73 *)
Fixpoint mkdir_each (directories : list string) : Cmd World (option error) :=
  match directories with
  | [] => cmd_ret None
  | dir :: rest =>
      do err <- os_MkdirAll dir;
      match err with
      | Some e => cmd_ret (Some e)
      | None => mkdir_each rest
      end
  end.

Definition createDirectoryStructure (projectPath : string) : Cmd World (option error) :=
  mkdir_each [projectPath; Join [projectPath; "src"]].

(** main.go:75-78 *)
Definition createMainMicroscript (projectPath : string) : Cmd World (option error) :=
  os_WriteFile (Join [projectPath; "src"; "main.microscript"]) MAIN_MICROSCRIPT.

(** main.go:80-83 *)
Definition createBituinConfig (projectPath projectName : string) : Cmd World (option error) :=
  os_WriteFile (Join [projectPath; "bituin.toml"]) (getBituinToml projectName).

Definition when (b : bool) (c : Cmd World unit) : Cmd World unit :=
  if b then c else cmd_ret tt.

(** [if err != nil { ... }] *)
Definition on_error (err : option error) (handler : error -> Cmd World unit)
  : Cmd World unit :=
  match err with
  | Some e => handler e
  | None => cmd_ret tt
  end.

Definition add_template : string :=
  "function main() {" +:+ LF +:+
  "    // Add your code here" +:+ LF +:+
  "}" +:+ LF +:+
  LF +:+
  "main();".

(** main.go:85-123 *)
Definition addMicroscriptFile (filename : string) : Cmd World unit :=
  do (cwd, err) <- os_Getwd;
  on_error err (fun e => fmt_Print ("Error: " +:+ Error e +:+ LF);; os_Exit 1);;
  let bituinTomlPath := Join [cwd; "bituin.toml"] in
  do err <- os_Stat bituinTomlPath;
  when (IsNotExist err)
    (fmt_Println "Error: Not in a Bituin project directory";; os_Exit 1);;
  let srcDir := Join [cwd; "src"] in
  do err <- os_MkdirAll srcDir;
  on_error err (fun e =>
    fmt_Print ("Error creating src directory: " +:+ Error e +:+ LF);; os_Exit 1);;
  let filePath := Join [srcDir; filename] in
  do err <- os_WriteFile filePath add_template;
  on_error err (fun e =>
    fmt_Print ("Error creating MicroScript file: " +:+ Error e +:+ LF);; os_Exit 1);;
  do elapsed <- elapsed_Seconds;
  fmt_Print ("[" +:+ elapsed +:+ "s] Create file: " +:+ filename +:+ LF).

(** *** runProject (main.go:125-231) *)

(** The argument scan, main.go:131-137, over [args[1:]]. *)
Fixpoint scan_args (rest : list string) (isPreview : bool) (targetFile : string)
  : bool * string :=
  match rest with
  | [] => (isPreview, targetFile)
  | arg :: rest' =>
      if String.eqb arg PREVIEW_FLAG
      then scan_args rest' true targetFile
      else scan_args rest' isPreview arg
  end.

Definition parse_run_args (args : list string) : bool * string :=
  scan_args (drop 1 args) false EmptyString.

(** [fmt.Sprintf] of the replacement, main.go:166. *)
Definition main_file_assignment (mainFileName : string) : string :=
  "main_file = " +:+ quoted ("src/" +:+ mainFileName).

(** The text written back to bituin.toml, main.go:165-166. *)
Definition updatedConfig (configContent mainFileName : string) : string :=
  Regexp.ReplaceAllString configContent (main_file_assignment mainFileName).

(** Determine main file, main.go:157-184: gives [mainFile] and
    [mainFileName]. *)
Definition determine_main_file (cwd bituinTomlPath configContent targetFile : string)
  : Cmd World (string * string) :=
  if negb (String.eqb targetFile EmptyString) then
    let mainFileName := targetFile in
    let mainFile := Join [cwd; "src"; mainFileName] in
    do err <- os_WriteFile bituinTomlPath (updatedConfig configContent mainFileName);
    on_error err (fun e =>
      fmt_Print ("Error updating bituin.toml: " +:+ Error e +:+ LF);; os_Exit 1);;
    cmd_ret (mainFile, mainFileName)
  else
    match Regexp.FindStringSubmatch configContent with
    | None =>
        cmd_ret (Join [cwd; "src"; "main.microscript"], "main.microscript")
    | Some matches =>
        let mainFile := Join [cwd; Regexp.group1 matches] in
        cmd_ret (mainFile, Base mainFile)
    end.

(** main.go:125-184: the arguments, the working directory, the config and
    the main file. Gives [isPreview], [cwd], [mainFile], [mainFileName]. *)
Definition runProject_entry (args : list string)
  : Cmd World (bool * string * string * string) :=
  let '(isPreview, targetFile) := parse_run_args args in
  do (cwd, err) <- os_Getwd;
  on_error err (fun e => fmt_Print ("Error: " +:+ Error e +:+ LF);; os_Exit 1);;
  let bituinTomlPath := Join [cwd; "bituin.toml"] in
  do err <- os_Stat bituinTomlPath;
  when (IsNotExist err)
    (fmt_Println "Error: bituin.toml not found. Are you in a bituin project directory?";;
     os_Exit 1);;
  do (configContent, err) <- os_ReadFile bituinTomlPath;
  on_error err (fun e =>
    fmt_Print ("Error reading bituin.toml: " +:+ Error e +:+ LF);; os_Exit 1);;
  do (mainFile, mainFileName) <-
    determine_main_file cwd bituinTomlPath configContent targetFile;
  cmd_ret (isPreview, cwd, mainFile, mainFileName).

Definition executable_name (isPreview : bool) : string :=
  if isPreview then "microscript-preview.exe" else "microscript.exe".

Definition running_banner (isPreview : bool) (mainFileName : string) : string :=
  if isPreview
  then grey ("Running in preview mode: " +:+ mainFileName) +:+ LF
  else grey ("Running: " +:+ mainFileName) +:+ LF.

Definition main_file_not_found (mainFile : string) : string :=
  "Error: Main file " +:+ quoted mainFile +:+ " not found." +:+ LF.

Definition executable_not_found (executableName : string) : string :=
  "Error: " +:+ executableName +:+ " not found in parent directory." +:+ LF.

(** U+2713 in UTF-8. *)
Definition check_mark : string := String "226" (String "156" (String "147" EmptyString)).

(** main.go:186-231: the main file check, the executable and the child. *)
Definition runProject_execute (isPreview : bool) (cwd mainFile mainFileName : string)
  : Cmd World unit :=
  do err <- os_Stat mainFile;
  when (IsNotExist err) (fmt_Print (main_file_not_found mainFile);; os_Exit 1);;
  let executableName := executable_name isPreview in
  fmt_Print (running_banner isPreview mainFileName);;
  let microscriptExe := Join [cwd; ".."; executableName] in
  do err <- os_Stat microscriptExe;
  when (IsNotExist err) (fmt_Print (executable_not_found executableName);; os_Exit 1);;
  do (output, err) <- cmd_CombinedOutput microscriptExe ["run"; mainFile];
  do elapsed <- elapsed_Seconds;
  on_error err (fun _ =>
    fmt_Print (red ("[" +:+ elapsed +:+ "s] Error: execution failed") +:+ LF);;
    when (0 <? String.length output)%nat (fmt_Print output);;
    os_Exit 1);;
  let mode := if negb isPreview then "regular" else "preview" in
  fmt_Print (grey ("[" +:+ elapsed +:+ "s] Success: " +:+ mainFileName
               +:+ " (" +:+ mode +:+ " mode)") +:+ LF);;
  fmt_Println (green check_mark +:+ " Project executed successfully!");;
  fmt_Println EmptyString;;
  when (0 <? String.length output)%nat (fmt_Print output).

Definition runProject (args : list string) : Cmd World unit :=
  do (isPreview, cwd, mainFile, mainFileName) <- runProject_entry args;
  runProject_execute isPreview cwd mainFile mainFileName.

(** main.go:233-278 *)
Definition createProject (projectName : string) (isNew : bool) : Cmd World unit :=
  do (cwd, err) <- os_Getwd;
  on_error err (fun e => fmt_Print ("Error: " +:+ Error e +:+ LF);; os_Exit 1);;
  let projectPath := if isNew then Join [cwd; projectName] else cwd in
  (if isNew then
     do err <- os_Stat projectPath;
     when (negb (IsNotExist err))
       (fmt_Print ("Error: Directory " +:+ quoted projectName +:+ " already exists." +:+ LF);;
        os_Exit 1)
   else cmd_ret tt);;
  do err <- createDirectoryStructure projectPath;
  on_error err (fun e =>
    fmt_Print ("Error creating directory structure: " +:+ Error e +:+ LF);; os_Exit 1);;
  do err <- createMainMicroscript projectPath;
  on_error err (fun e =>
    fmt_Print ("Error creating main.microscript: " +:+ Error e +:+ LF);; os_Exit 1);;
  do err <- createBituinConfig projectPath projectName;
  on_error err (fun e =>
    fmt_Print ("Error creating bituin.toml: " +:+ Error e +:+ LF);; os_Exit 1);;
  fmt_Print ("Bituin project " +:+ quoted projectName +:+ " created successfully!" +:+ LF);;
  fmt_Println (LF +:+ "To get started:");;
  when isNew (fmt_Print ("  cd " +:+ projectName +:+ LF));;
  fmt_Println "  bituin run".

(** [args[1]]; read only where [len(args) >= 2]. *)
Definition arg1 (args : list string) : string := nth 1 args EmptyString.

(** main.go:280-325; [args] is [os.Args[1:]]. *)
Definition main (args : list string) : Cmd World unit :=
  match args with
  | [] => printUsage;; os_Exit 1
  | command :: _ =>
      if String.eqb command HELP then printUsage
      else if String.eqb command VERSION_CMD then fmt_Println VERSION
      else if String.eqb command AUTHOR_CMD then fmt_Println AUTHOR
      else if String.eqb command NEW then
        when (length args <? 2)%nat
          (fmt_Println "Error: Project name required for new command";;
           printUsage;; os_Exit 1);;
        createProject (arg1 args) true
      else if String.eqb command INIT then
        when (length args <? 2)%nat
          (fmt_Println "Error: Project name required for init command";;
           printUsage;; os_Exit 1);;
        createProject (arg1 args) false
      else if String.eqb command ADD then
        when (length args <? 2)%nat
          (fmt_Println "Error: File name required for add command";;
           printUsage;; os_Exit 1);;
        addMicroscriptFile (arg1 args)
      else if String.eqb command RUN then runProject args
      else
        fmt_Print ("Unknown command: " +:+ command +:+ LF);;
        printUsage;; os_Exit 1
  end.

(** What [main] prints when the argument of a command is missing
    (main.go:299, 306, 313). *)
Definition missing_argument (command : string) : string :=
  if String.eqb command NEW then "Error: Project name required for new command"
  else if String.eqb command INIT then "Error: Project name required for init command"
  else "Error: File name required for add command".

(** A project whose config can be read: what [run] needs to get past
    main.go:155. *)
Definition readable_project (w : World) (cwd config : string) : Prop :=
  Getwd w = (cwd, None)
  /\ IsNotExist (Stat w (Join [cwd; "bituin.toml"])) = false
  /\ ReadFile w (Join [cwd; "bituin.toml"]) = (config, None).

End Program.

(** ** An in-memory file system

    An instance of the interface: slash-separated paths, a map from clean
    absolute paths to files and directories, a working directory. The
    child process of [CombinedOutput] prints the content of the executable
    file and changes nothing. *)
Module MemFS.

Inductive node := File (content : string) | Dir.

Record fs := FS { cwd : string; nodes : gmap string node }.

Fixpoint split_slash (s : string) : list string :=
  match s with
  | EmptyString => [EmptyString]
  | String c s' =>
      if Ascii.eqb c "/" then EmptyString :: split_slash s'
      else match split_slash s' with
           | x :: xs => String c x :: xs
           | [] => [String c EmptyString]
           end
  end.

Fixpoint join_slash (elems : list string) : string :=
  match elems with
  | [] => EmptyString
  | [e] => e
  | e :: rest => e +:+ "/" +:+ join_slash rest
  end.

(** The elements of a clean path; [out] is the path so far, last element
    first. *)
Fixpoint clean_elems (rooted : bool) (elems out : list string) : list string :=
  match elems with
  | [] => rev out
  | e :: rest =>
      if (String.eqb e EmptyString || String.eqb e ".")%bool
      then clean_elems rooted rest out
      else if String.eqb e ".." then
        match out with
        | top :: out' =>
            if String.eqb top ".." then clean_elems rooted rest (e :: out)
            else clean_elems rooted rest out'
        | [] => if rooted then clean_elems rooted rest []
                else clean_elems rooted rest [e]
        end
      else clean_elems rooted rest (e :: out)
  end.

Definition is_rooted (path : string) : bool :=
  match path with
  | String c _ => Ascii.eqb c "/"
  | EmptyString => false
  end.

(** [filepath.Clean] *)
Definition Clean (path : string) : string :=
  let rooted := is_rooted path in
  let body := join_slash (clean_elems rooted (split_slash path) []) in
  if rooted then "/" +:+ body
  else if String.eqb body EmptyString then "." else body.

(** [filepath.Join]: the elements from the first one that is not empty. *)
Fixpoint Join (elem : list string) : string :=
  match elem with
  | [] => EmptyString
  | e :: rest =>
      if String.eqb e EmptyString then Join rest else Clean (join_slash elem)
  end.

(** [filepath.Base] *)
Definition Base (path : string) : string :=
  if String.eqb path EmptyString then "."
  else match last (filter (fun e => e <> EmptyString) (split_slash path)) with
       | Some b => b
       | None => "/"
       end.

(** [filepath.Dir] of a clean path. *)
Definition parent (path : string) : string :=
  let elems := split_slash path in
  Clean (join_slash (take (length elems - 1) elems) +:+ "/").

Definition ENOENT : error := {| Error := "no such file or directory"; not_exist := true |}.
Definition ENOTDIR : error := {| Error := "not a directory"; not_exist := false |}.
Definition EISDIR : error := {| Error := "is a directory"; not_exist := false |}.

Definition Stat (w : fs) (path : string) : option error :=
  match nodes w !! path with
  | Some _ => None
  | None => Some ENOENT
  end.

Definition ReadFile (w : fs) (path : string) : string * option error :=
  match nodes w !! path with
  | Some (File data) => (data, None)
  | Some Dir => (EmptyString, Some EISDIR)
  | None => (EmptyString, Some ENOENT)
  end.

Definition WriteFile (w : fs) (path data : string) : fs * option error :=
  match nodes w !! path with
  | Some Dir => (w, Some EISDIR)
  | _ =>
      match nodes w !! parent path with
      | Some Dir => (FS (cwd w) (<[path := File data]> (nodes w)), None)
      | Some (File _) => (w, Some ENOTDIR)
      | None => (w, Some ENOENT)
      end
  end.

(** The directories from the root down to [path]. *)
Fixpoint ancestors (prefix : string) (elems : list string) : list string :=
  match elems with
  | [] => []
  | e :: rest =>
      let dir := if String.eqb prefix "/" then prefix +:+ e
                 else prefix +:+ "/" +:+ e in
      dir :: ancestors dir rest
  end.

Fixpoint mkdirs (dirs : list string) (m : gmap string node)
  : gmap string node * option error :=
  match dirs with
  | [] => (m, None)
  | d :: rest =>
      match m !! d with
      | Some (File _) => (m, Some ENOTDIR)
      | Some Dir => mkdirs rest m
      | None => mkdirs rest (<[d := Dir]> m)
      end
  end.

Definition MkdirAll (w : fs) (path : string) : fs * option error :=
  let elems := filter (fun e => e <> EmptyString) (split_slash (Clean path)) in
  let '(m, err) := mkdirs (ancestors "/" elems) (nodes w) in
  (FS (cwd w) m, err).

Definition CombinedOutput (w : fs) (name : string) (args : list string)
  : fs * string * option error :=
  match nodes w !! name with
  | Some (File output) => (w, output, None)
  | _ => (w, EmptyString, Some ENOENT)
  end.

#[global] Instance mem_os : OS fs :=
  Build_OS fs (fun w => (cwd w, None)) Stat ReadFile WriteFile MkdirAll
    CombinedOutput Join Base (fun _ => "0.000").

(** A project directory /work/demo next to the two interpreters. *)
Definition project (config : string) : fs :=
  FS "/work/demo"
     (<["/" := Dir]> (<["/work" := Dir]> (<["/work/demo" := Dir]>
      (<["/work/demo/src" := Dir]>
      (<["/work/demo/src/main.microscript" := File MAIN_MICROSCRIPT]>
      (<["/work/demo/bituin.toml" := File config]>
      (<["/work/microscript.exe" := File ("Hello, World!" +:+ LF)]>
      (<["/work/microscript-preview.exe" := File ("Hello, preview!" +:+ LF)]>
       ∅)))))))).

(** The same files seen from another working directory. *)
Definition chdir (dir : string) (w : fs) : fs := FS dir (nodes w).

(** An empty directory /work. *)
Definition empty_dir : fs := FS "/work" (<["/" := Dir]> (<["/work" := Dir]> ∅)).

(** The project once a run with the target [F] has written its config. *)
Definition after_write (config F : string) : fs :=
  fst (WriteFile (project config) "/work/demo/bituin.toml"
         (updatedConfig config F)).

(** A copy of the interpreter in the project directory, none in the
    parent. *)
Definition interpreter_inside : fs :=
  FS "/work/demo"
    (<["/work/demo/microscript.exe" := File ("Hello, World!" +:+ LF)]>
       (delete "/work/microscript.exe" (nodes (project (getBituinToml "demo"))))).

End MemFS.

(** ** Texts with assignments

    What the statements below say about a config text; none of this is
    code of main.go. *)

Fixpoint all_space (w : string) : bool :=
  match w with
  | String c w' => (Regexp.is_space c && all_space w')%bool
  | EmptyString => true
  end.

(** The text has an assignment: somewhere in it the word main_file, spaces,
    an equals sign, spaces, and a non-empty value between double quotes
    that has no double quote in it. *)
Definition has_assignment (config : string) : Prop :=
  exists before w1 w2 value after,
    config = before +:+ Regexp.literal +:+ w1 +:+ String "=" (w2 +:+ quoted value +:+ after)
    /\ all_space w1 = true /\ all_space w2 = true
    /\ value <> EmptyString /\ contains_byte DQ value = false.

(** The assignment [run] writes for [mainFileName], as a match. *)
Definition written (mainFileName : string) : Regexp.submatch :=
  {| Regexp.whole := main_file_assignment mainFileName;
     Regexp.group1 := "src/" +:+ mainFileName |}.

(** The rewrite as the specification words it, to compare with
    [updatedConfig]: the first occurrence is replaced and the text after
    it is kept. *)
Definition spec_rewriteMainFile (configText mainFileName : string) : string :=
  match Regexp.search configText with
  | None => configText
  | Some (before, m, rest) =>
      before +:+ Regexp.expand (main_file_assignment mainFileName) m +:+ rest
  end.

(** Whether a text starts with the first byte of the pattern. *)
Definition starts_m (t : string) : Prop := exists t0, t = String "m" t0.

(** [capture] succeeds exactly on a byte other than the quote followed,
    somewhere, by a quote. *)
Definition capturable (s : string) : bool :=
  match s with
  | String c s' => (negb (Ascii.eqb c DQ) && contains_byte DQ s')%bool
  | EmptyString => false
  end.

(** Two texts for the examples: a config with two assignments, and one
    with none. *)
Definition two_assignments : string :=
  "main_file = " +:+ quoted "src/a.microscript" +:+ LF +:+
  "main_file = " +:+ quoted "src/b.microscript".

Definition no_assignment : string :=
  "[package]" +:+ LF +:+ "name = " +:+ quoted "demo".

(** [re.FindAllStringSubmatch s (-1)] written with [search]: every match,
    left to right. main.go does not call it; it says what
    [ReplaceAllString] did to a text. *)
Fixpoint occurrences_loop (rounds : nat) (s : string) : list Regexp.submatch :=
  match rounds with
  | O => []
  | S k =>
      match Regexp.search s with
      | None => []
      | Some (_, m, rest) => m :: occurrences_loop k rest
      end
  end.

Definition occurrences (s : string) : list Regexp.submatch :=
  occurrences_loop (String.length s) s.

(** ** Reports and more worlds

    The texts the commands print on their longer paths, and worlds and
    operating systems on which calls fail; none of this is code of
    main.go. *)

(** What [createProject] prints when it has made the project. *)
Definition created_report (projectName : string) (isNew : bool) : list string :=
  [ "Bituin project " +:+ quoted projectName +:+ " created successfully!" +:+ LF;
    LF +:+ "To get started:" +:+ LF ]
  ++ (if isNew then ["  cd " +:+ projectName +:+ LF] else [])
  ++ [ "  bituin run" +:+ LF ].

(** What [run] prints after the banner, for a child that ended with or
    without error. *)
Definition child_report (isPreview : bool) (mainFileName elapsed : string)
    (err : option error) : list string :=
  match err with
  | Some _ => [red ("[" +:+ elapsed +:+ "s] Error: execution failed") +:+ LF]
  | None =>
      [ grey ("[" +:+ elapsed +:+ "s] Success: " +:+ mainFileName +:+ " ("
              +:+ (if isPreview then "preview" else "regular") +:+ " mode)") +:+ LF;
        green check_mark +:+ " Project executed successfully!" +:+ LF;
        LF ]
  end.

Module MemCases.

Definition EROFS : error :=
  {| Error := "read-only file system"; not_exist := false |}.

(** The in-memory file system mounted read-only: nothing can be written or
    made. *)
Definition read_only : OS MemFS.fs :=
  Build_OS MemFS.fs (fun w => (MemFS.cwd w, None)) MemFS.Stat MemFS.ReadFile
    (fun w _ _ => (w, Some EROFS)) (fun w _ => (w, Some EROFS))
    MemFS.CombinedOutput MemFS.Join MemFS.Base (fun _ => "0.000").

(** The in-memory file system for a process whose working directory has
    been removed: [Getwd] fails. *)
Definition lost : OS MemFS.fs :=
  Build_OS MemFS.fs (fun _ => (EmptyString, Some MemFS.ENOENT)) MemFS.Stat
    MemFS.ReadFile MemFS.WriteFile MemFS.MkdirAll MemFS.CombinedOutput
    MemFS.Join MemFS.Base (fun _ => "0.000").

(** The demo project with a file where its src directory should be. *)
Definition src_is_file : MemFS.fs :=
  MemFS.FS "/work/demo"
    (<["/work/demo/src" := MemFS.File EmptyString]>
       (MemFS.nodes (MemFS.project (getBituinToml "demo")))).

(** The demo project with a directory where its config should be. *)
Definition config_is_dir : MemFS.fs :=
  MemFS.FS "/work/demo"
    (<["/work/demo/bituin.toml" := MemFS.Dir]>
       (MemFS.nodes (MemFS.project (getBituinToml "demo")))).

(** The worlds on the way of [new a] in the empty directory /work. *)
Definition new_1 : MemFS.fs := fst (MemFS.MkdirAll MemFS.empty_dir "/work/a").
Definition new_2 : MemFS.fs := fst (MemFS.MkdirAll new_1 "/work/a/src").
Definition new_3 : MemFS.fs :=
  fst (MemFS.WriteFile new_2 "/work/a/src/main.microscript" MAIN_MICROSCRIPT).
Definition new_4 : MemFS.fs :=
  fst (MemFS.WriteFile new_3 "/work/a/bituin.toml" (getBituinToml "a")).

(** The demo project after [add util.microscript]. *)
Definition added : MemFS.fs :=
  fst (MemFS.WriteFile (MemFS.project (getBituinToml "demo"))
         "/work/demo/src/util.microscript" add_template).

End MemCases.

(** * Properties *)

(** ** Strings *)
Module Str.

Lemma app_cons c a b : String c a +:+ b = String c (a +:+ b).
Proof. reflexivity. Qed.

Lemma app_empty_l a : EmptyString +:+ a = a.
Proof. reflexivity. Qed.

Lemma app_empty_r a : a +:+ EmptyString = a.
Proof. induction a as [|c a IH]; [reflexivity|]. by rewrite app_cons, IH. Qed.

Lemma app_assoc a b c : (a +:+ b) +:+ c = a +:+ (b +:+ c).
Proof. induction a as [|x a IH]; [reflexivity|]. by rewrite !app_cons, IH. Qed.

Lemma length_app a b :
  String.length (a +:+ b) = (String.length a + String.length b)%nat.
Proof. induction a as [|x a IH]; [reflexivity|]. rewrite app_cons. simpl. by rewrite IH. Qed.

Lemma contains_byte_app c a b :
  contains_byte c (a +:+ b) = (contains_byte c a || contains_byte c b)%bool.
Proof.
  induction a as [|x a IH]; [reflexivity|].
  rewrite app_cons. simpl. destruct (Ascii.eqb c x); [reflexivity|apply IH].
Qed.

End Str.

(** ** The matcher *)
Module RegexpFacts.
Import Regexp.

Lemma contains_byte_cons c d s :
  contains_byte c (String d s) = if Ascii.eqb d c then true else contains_byte c s.
Proof. simpl. by rewrite Ascii.eqb_sym. Qed.

Lemma span_unquoted_cons c s :
  span_unquoted (String c s) =
    if Ascii.eqb c DQ then (EmptyString, String c s)
    else (String c (fst (span_unquoted s)), snd (span_unquoted s)).
Proof. simpl. by destruct (span_unquoted s). Qed.

Lemma span_unquoted_rest s :
  snd (span_unquoted s) = EmptyString /\ contains_byte DQ s = false
  \/ (exists r, snd (span_unquoted s) = String DQ r) /\ contains_byte DQ s = true.
Proof.
  induction s as [|c s IH]; [by left|].
  rewrite span_unquoted_cons, contains_byte_cons.
  destruct (Ascii.eqb_spec c DQ) as [->|Hc]; [right; eauto|exact IH].
Qed.

Lemma capture_None s : capture s = None <-> capturable s = false.
Proof.
  unfold capture, capturable. destruct s as [|c s]; [done|].
  rewrite span_unquoted_cons.
  destruct (Ascii.eqb c DQ); [done|].
  destruct (span_unquoted_rest s) as [[Hr Hq]|[[r Hr] Hq]];
    rewrite Hr, Hq; done.
Qed.

Lemma capture_stable u t t' :
  starts_m t -> contains_byte DQ t = true ->
  capture (u +:+ t) = None -> capture (u +:+ t') = None.
Proof.
  intros [t0 ->] Hq. rewrite !capture_None.
  destruct u as [|c u].
  - rewrite Str.app_empty_l. unfold capturable.
    rewrite contains_byte_cons in Hq. simpl in Hq. rewrite Hq. done.
  - rewrite !Str.app_cons. unfold capturable.
    rewrite Str.contains_byte_app, Hq, orb_true_r, andb_true_r.
    intros ->. done.
Qed.

Lemma open_quote_cons c s :
  open_quote (String c s) =
    if is_space c then open_quote s
    else if Ascii.eqb c DQ then capture s else None.
Proof. unfold open_quote. simpl. by destruct (is_space c). Qed.

Lemma assign_cons c s :
  assign (String c s) =
    if is_space c then assign s
    else if Ascii.eqb c "=" then open_quote s else None.
Proof. unfold assign. simpl. by destruct (is_space c). Qed.

Lemma open_quote_stable u t t' :
  starts_m t -> contains_byte DQ t = true -> starts_m t' ->
  open_quote (u +:+ t) = None -> open_quote (u +:+ t') = None.
Proof.
  intros Ht Hq [t0' ->].
  induction u as [|c u IH].
  - reflexivity.
  - rewrite !Str.app_cons, !open_quote_cons.
    destruct (is_space c); [exact IH|].
    destruct (Ascii.eqb c DQ); [|done].
    by apply capture_stable.
Qed.

Lemma assign_stable u t t' :
  starts_m t -> contains_byte DQ t = true -> starts_m t' ->
  assign (u +:+ t) = None -> assign (u +:+ t') = None.
Proof.
  intros Ht Hq Ht'.
  induction u as [|c u IH].
  - destruct Ht' as [t0' ->]. reflexivity.
  - rewrite !Str.app_cons, !assign_cons.
    destruct (is_space c); [exact IH|].
    destruct (Ascii.eqb c "="); [|done].
    by apply open_quote_stable.
Qed.

(** After a prefix [p] without the byte m, the attempt fails on [u +:+ t']
    when it fails on [u +:+ t]. *)
Lemma trim_prefix_stable p u t t' :
  contains_byte "m" p = false ->
  starts_m t -> contains_byte DQ t = true -> starts_m t' ->
  from_option assign None (trim_prefix p (u +:+ t)) = None ->
  from_option assign None (trim_prefix p (u +:+ t')) = None.
Proof.
  intros Hp Ht Hq Ht'. revert u.
  induction p as [|a p IH]; intros u; simpl.
  - by apply assign_stable.
  - rewrite contains_byte_cons in Hp.
    destruct (Ascii.eqb a "m") eqn:Ha; [done|].
    destruct u as [|c u].
    + destruct Ht' as [t0' ->]. rewrite Str.app_empty_l. simpl. by rewrite Ha.
    + rewrite !Str.app_cons. simpl. destruct (Ascii.eqb a c); [|done]. by apply IH.
Qed.

Lemma trim_prefix_cons a p c s :
  trim_prefix (String a p) (String c s) =
    if Ascii.eqb a c then trim_prefix p s else None.
Proof. reflexivity. Qed.

Lemma match_here_from_option s :
  match_here s = from_option assign None (trim_prefix literal s).
Proof. unfold match_here. by destruct (trim_prefix literal s). Qed.

(** An attempt that fails before a match fails before any other text that
    starts like a match: the bytes it has read either decide the failure
    or would have found the quote that closes the capture. *)
Lemma match_here_stable u t t' :
  u <> EmptyString ->
  starts_m t -> contains_byte DQ t = true -> starts_m t' ->
  match_here (u +:+ t) = None -> match_here (u +:+ t') = None.
Proof.
  intros Hu Ht Hq Ht'. destruct u as [|c u]; [done|].
  rewrite !match_here_from_option, !Str.app_cons.
  change literal with (String "m" "ain_file"). rewrite !trim_prefix_cons.
  destruct (Ascii.eqb "m" c); [|done].
  by apply trim_prefix_stable.
Qed.

(** *** The language of the pattern *)

Lemma trim_prefix_Some p s r : trim_prefix p s = Some r <-> s = p +:+ r.
Proof.
  revert s. induction p as [|a p IH]; intros s.
  - rewrite Str.app_empty_l. simpl. split; congruence.
  - rewrite Str.app_cons. destruct s as [|c s]; [done|].
    rewrite trim_prefix_cons.
    destruct (Ascii.eqb_spec a c) as [->|Hac].
    + rewrite IH. split; congruence.
    + split; congruence.
Qed.

Lemma skip_space_cons c s :
  skip_space (String c s) = if is_space c then skip_space s else String c s.
Proof. reflexivity. Qed.

Lemma skip_space_split s :
  exists w, s = w +:+ skip_space s /\ all_space w = true.
Proof.
  induction s as [|c s [w [Hs Hw]]].
  - by exists EmptyString.
  - rewrite skip_space_cons. destruct (is_space c) eqn:Hc.
    + exists (String c w). rewrite Str.app_cons, <- Hs. simpl. by rewrite Hc, Hw.
    + by exists EmptyString.
Qed.

Lemma skip_space_app w c r :
  all_space w = true -> is_space c = false ->
  skip_space (w +:+ String c r) = String c r.
Proof.
  intros Hw Hc. induction w as [|x w IH].
  - rewrite Str.app_empty_l, skip_space_cons. by rewrite Hc.
  - simpl in Hw. apply andb_true_iff in Hw as [Hx Hw].
    rewrite Str.app_cons, skip_space_cons, Hx. by apply IH.
Qed.

Lemma span_unquoted_split s :
  s = fst (span_unquoted s) +:+ snd (span_unquoted s)
  /\ contains_byte DQ (fst (span_unquoted s)) = false.
Proof.
  induction s as [|c s [Hs Hq]]; [done|].
  rewrite span_unquoted_cons. destruct (Ascii.eqb c DQ) eqn:Hc; [done|].
  cbn [fst snd]. rewrite Str.app_cons, <- Hs, contains_byte_cons, Hc. done.
Qed.

Lemma span_unquoted_app run rest :
  contains_byte DQ run = false ->
  span_unquoted (run +:+ String DQ rest) = (run, String DQ rest).
Proof.
  intros Hq. induction run as [|c run IH].
  - rewrite Str.app_empty_l, span_unquoted_cons. by rewrite Ascii.eqb_refl.
  - rewrite contains_byte_cons in Hq.
    destruct (Ascii.eqb c DQ) eqn:Hc; [done|].
    rewrite Str.app_cons, span_unquoted_cons, Hc, (IH Hq). done.
Qed.

(** A text matches at its start exactly when it is the literal, spaces,
    the equals sign, spaces, and a non-empty quoted text without a quote
    in it; the capture and the rest are then determined. *)
Lemma match_here_Some s cap rest :
  match_here s = Some (cap, rest) <->
  exists w1 w2,
    s = literal +:+ w1 +:+ String "=" (w2 +:+ quoted cap +:+ rest)
    /\ all_space w1 = true /\ all_space w2 = true
    /\ cap <> EmptyString /\ contains_byte DQ cap = false.
Proof.
  split.
  - unfold match_here.
    destruct (trim_prefix literal s) as [r|] eqn:Hr; [|done].
    apply trim_prefix_Some in Hr as ->.
    unfold assign. destruct (skip_space_split r) as [w1 [Hr Hw1]].
    destruct (skip_space r) as [|c r1]; [done|].
    destruct (Ascii.eqb_spec c "=") as [->|]; [|done].
    unfold open_quote. destruct (skip_space_split r1) as [w2 [Hr1 Hw2]].
    destruct (skip_space r1) as [|c r2]; [done|].
    destruct (Ascii.eqb_spec c DQ) as [->|]; [|done].
    unfold capture. destruct (span_unquoted_split r2) as [Hr2 Hq].
    destruct (span_unquoted_rest r2) as [[Hn _]|[[r3 Hn] _]];
      destruct (span_unquoted r2) as [run rst]; cbn [fst snd] in *; subst rst.
    { destruct run; done. }
    destruct run as [|x run]; [done|].
    intros [= <- <-]. exists w1, w2. split_and!; [|done..].
    rewrite Hr at 1. f_equal. f_equal. f_equal. rewrite Hr1 at 1. f_equal.
    unfold quoted. rewrite Hr2 at 1.
    by rewrite !Str.app_cons, !Str.app_assoc, !Str.app_cons, Str.app_empty_l.
  - intros (w1 & w2 & -> & Hw1 & Hw2 & Hne & Hq).
    unfold match_here.
    rewrite (proj2 (trim_prefix_Some literal _ _) eq_refl).
    unfold assign. rewrite skip_space_app by done.
    rewrite Ascii.eqb_refl. unfold open_quote, quoted.
    rewrite Str.app_assoc, !Str.app_cons, skip_space_app by done.
    rewrite Ascii.eqb_refl. unfold capture.
    rewrite Str.app_empty_l, span_unquoted_app by done.
    destruct cap; done.
Qed.

Lemma match_here_starts_m s cap rest :
  match_here s = Some (cap, rest) -> starts_m s /\ contains_byte DQ s = true.
Proof.
  intros (w1 & w2 & -> & _)%match_here_Some. split.
  - eexists. reflexivity.
  - unfold quoted.
    rewrite !Str.contains_byte_app, contains_byte_cons, !Str.contains_byte_app,
      contains_byte_cons, Ascii.eqb_refl.
    by rewrite !orb_true_r; destruct (Ascii.eqb "=" DQ).
Qed.

Lemma match_here_shorter s cap rest :
  match_here s = Some (cap, rest) -> (String.length rest < String.length s)%nat.
Proof.
  intros (w1 & w2 & -> & _)%match_here_Some.
  rewrite !Str.length_app. simpl. rewrite !Str.length_app. lia.
Qed.

(** *** The leftmost match *)

Lemma search_eq s :
  search s =
    match match_here s with
    | Some (cap, rest) =>
        Some (EmptyString,
              {| whole := take_bytes (String.length s - String.length rest) s;
                 group1 := cap |},
              rest)
    | None =>
        match s with
        | EmptyString => None
        | String c s' =>
            match search s' with
            | Some (before, m, rest) => Some (String c before, m, rest)
            | None => None
            end
        end
    end.
Proof. destruct s; reflexivity. Qed.

(** What [search] returns is a split of the text at a match. *)
Lemma search_Some s before m rest :
  search s = Some (before, m, rest) ->
  exists t, s = before +:+ t
    /\ match_here t = Some (group1 m, rest)
    /\ whole m = take_bytes (String.length t - String.length rest) t.
Proof.
  revert before. induction s as [|c s IH]; intros before; rewrite search_eq.
  - done.
  - destruct (match_here (String c s)) as [[cap r]|] eqn:Hm.
    + intros [= <- <- <-]. by exists (String c s).
    + destruct (search s) as [[[b' m'] r']|] eqn:Hs; [|done].
      intros [= <- <- <-]. destruct (IH _ eq_refl) as (t & -> & Ht & Hw).
      by exists t.
Qed.

Lemma search_shorter s before m rest :
  search s = Some (before, m, rest) -> (String.length rest < String.length s)%nat.
Proof.
  intros (t & -> & Ht%match_here_shorter & _)%search_Some.
  rewrite Str.length_app. lia.
Qed.

(** The text before the leftmost match stays free of matches when the
    match and what follows it are replaced by another text that starts
    with a match. *)
Lemma search_app s before m rest t' cap' rest' :
  search s = Some (before, m, rest) ->
  match_here t' = Some (cap', rest') ->
  search (before +:+ t') =
    Some (before,
          {| whole := take_bytes (String.length t' - String.length rest') t';
             group1 := cap' |},
          rest').
Proof.
  intros Hs Ht'. revert before Hs.
  induction s as [|c s IH]; intros before; rewrite search_eq.
  - done.
  - destruct (match_here (String c s)) as [[cap r]|] eqn:Hm.
    + intros [= <- <- <-]. by rewrite Str.app_empty_l, search_eq, Ht'.
    + destruct (search s) as [[[b' m'] r']|] eqn:Hs; [|done].
      intros [= <- <- <-].
      destruct (search_Some _ _ _ _ Hs) as (t & -> & Ht & _).
      rewrite Str.app_cons, search_eq.
      rewrite <- Str.app_cons in Hm |- *.
      destruct (match_here_starts_m _ _ _ Ht) as [Hm1 Hq1].
      destruct (match_here_starts_m _ _ _ Ht') as [Hm2 _].
      rewrite (match_here_stable (String c b') t t') by done.
      by rewrite (IH _ eq_refl).
Qed.

Lemma take_bytes_app a b :
  take_bytes (String.length (a +:+ b) - String.length b) (a +:+ b) = a.
Proof.
  rewrite Str.length_app.
  replace (String.length a + String.length b - String.length b)%nat
    with (String.length a) by lia.
  induction a as [|c a IH]; [by destruct b|].
  rewrite Str.app_cons. simpl. by rewrite IH.
Qed.

(** *** The loops have rounds enough *)

Lemma replace_loop_enough k1 k2 s repl :
  (String.length s <= k1)%nat -> (String.length s <= k2)%nat ->
  replace_loop k1 s repl = replace_loop k2 s repl.
Proof.
  revert k2 s. induction k1 as [|k1 IH]; intros k2 s H1 H2.
  - destruct s; [|simpl in H1; lia]. by destruct k2.
  - destruct k2 as [|k2]; [destruct s; [done|simpl in H2; lia]|].
    simpl. destruct (search s) as [[[b m] r]|] eqn:Hs; [|done].
    apply search_shorter in Hs. do 2 f_equal. apply IH; lia.
Qed.

Lemma ReplaceAllString_eq src repl :
  ReplaceAllString src repl =
    match search src with
    | None => src
    | Some (before, m, rest) =>
        before +:+ expand repl m +:+ ReplaceAllString rest repl
    end.
Proof.
  unfold ReplaceAllString. destruct src as [|c src]; [done|].
  simpl String.length. cbn [replace_loop].
  destruct (search (String c src)) as [[[b m] r]|] eqn:Hs; [|done].
  apply search_shorter in Hs. simpl in Hs. do 2 f_equal.
  apply replace_loop_enough; lia.
Qed.

(** *** Templates without a dollar sign *)

Lemma cut_dollar_None t : contains_byte "$" t = false -> cut_dollar t = None.
Proof.
  induction t as [|c t IH]; [done|].
  rewrite contains_byte_cons. simpl.
  destruct (Ascii.eqb c "$"); [done|]. intros Ht. by rewrite IH.
Qed.

Lemma cut_dollar_shorter t before after :
  cut_dollar t = Some (before, after) ->
  (String.length after < String.length t)%nat.
Proof.
  revert before. induction t as [|c t IH]; intros before; [done|].
  simpl. destruct (Ascii.eqb c "$"); [intros [= <- <-]; lia|].
  destruct (cut_dollar t) as [[b a]|]; [|done].
  intros [= <- <-]. specialize (IH _ eq_refl). lia.
Qed.

Lemma span_name_shorter s :
  (String.length (snd (span_name s)) <= String.length s)%nat.
Proof.
  induction s as [|c s IH]; [done|]. simpl.
  destruct (is_name_byte c); [|simpl; lia].
  destruct (span_name s) as [name rest]. simpl in *. lia.
Qed.

Lemma extract_shorter str name num rest :
  extract str = Some (name, num, rest) ->
  (String.length rest <= String.length str)%nat.
Proof.
  unfold extract. destruct str as [|c r]; [done|].
  destruct (Ascii.eqb c "{").
  - pose proof (span_name_shorter r) as Hs.
    destruct (span_name r) as [[|x n] after]; [done|].
    destruct after as [|d r']; [done|]. destruct (Ascii.eqb d "}"); [|done].
    intros [= _ _ <-]. simpl in *. lia.
  - pose proof (span_name_shorter (String c r)) as Hs.
    destruct (span_name (String c r)) as [[|x n] after]; [done|].
    intros [= _ _ <-]. simpl in *. lia.
Qed.

(** The rounds of [expand] are enough: any number of rounds from the
    length of the template on gives the same text. *)
Lemma expand_loop_enough k1 k2 t m :
  (String.length t <= k1)%nat -> (String.length t <= k2)%nat ->
  expand_loop k1 t m = expand_loop k2 t m.
Proof.
  revert k2 t. induction k1 as [|k1 IH]; intros k2 t H1 H2.
  - destruct t; [|simpl in H1; lia]. by destruct k2.
  - destruct k2 as [|k2]; [destruct t; [done|simpl in H2; lia]|].
    simpl. destruct (cut_dollar t) as [[b a]|] eqn:Hc; [|done].
    apply cut_dollar_shorter in Hc. f_equal.
    destruct a as [|c r]; [done|].
    destruct (Ascii.eqb c "$").
    + f_equal. apply IH; simpl in Hc; lia.
    + destruct (extract (String c r)) as [[[n num] rest]|] eqn:He.
      * apply extract_shorter in He. f_equal. apply IH; lia.
      * f_equal. apply IH; lia.
Qed.

Lemma expand_plain t m : contains_byte "$" t = false -> expand t m = t.
Proof.
  intros Ht. unfold expand. destruct (String.length t); [done|].
  simpl. by rewrite cut_dollar_None.
Qed.

End RegexpFacts.

(** ** The rewrite of bituin.toml *)
Module ConfigFacts.
Import Regexp RegexpFacts.

Lemma match_here_assignment F rest :
  contains_byte DQ F = false ->
  match_here (main_file_assignment F +:+ rest) = Some ("src/" +:+ F, rest).
Proof.
  intros HF. apply match_here_Some. exists " ", " ". split_and!; try done.
Qed.

Lemma assignment_plain F :
  contains_byte "$" F = false ->
  contains_byte "$" (main_file_assignment F) = false.
Proof.
  intros HF.
  change (contains_byte "$" (F +:+ String DQ EmptyString) = false).
  by rewrite Str.contains_byte_app, HF.
Qed.

(** The replacement, one match at a time. *)
Lemma updatedConfig_eq config F :
  updatedConfig config F =
    match search config with
    | None => config
    | Some (before, m, rest) =>
        before +:+ expand (main_file_assignment F) m +:+ updatedConfig rest F
    end.
Proof. unfold updatedConfig. apply ReplaceAllString_eq. Qed.

Lemma updatedConfig_no_match config F :
  FindStringSubmatch config = None -> updatedConfig config F = config.
Proof.
  unfold FindStringSubmatch. rewrite updatedConfig_eq.
  by destruct (search config) as [[[b m] r]|].
Qed.

(** In the rewritten text the leftmost assignment is the written one, at
    the place of the leftmost assignment of the old text. *)
Lemma search_updatedConfig config F before m rest :
  contains_byte "$" F = false -> contains_byte DQ F = false ->
  search config = Some (before, m, rest) ->
  search (updatedConfig config F) = Some (before, written F, updatedConfig rest F).
Proof.
  intros Hd Hq Hs. rewrite updatedConfig_eq, Hs.
  rewrite expand_plain by by apply assignment_plain.
  rewrite (search_app _ _ _ _ _ _ _ Hs (match_here_assignment F _ Hq)).
  by rewrite take_bytes_app.
Qed.

(** Reading back what was written. *)
Lemma FindStringSubmatch_updatedConfig config F :
  contains_byte "$" F = false -> contains_byte DQ F = false ->
  FindStringSubmatch config <> None ->
  FindStringSubmatch (updatedConfig config F) = Some (written F).
Proof.
  intros Hd Hq. unfold FindStringSubmatch at 1.
  destruct (search config) as [[[b m] r]|] eqn:Hs; [intros _|done].
  unfold FindStringSubmatch. by rewrite (search_updatedConfig _ _ _ _ _ Hd Hq Hs).
Qed.

Lemma occurrences_loop_enough k1 k2 s :
  (String.length s <= k1)%nat -> (String.length s <= k2)%nat ->
  occurrences_loop k1 s = occurrences_loop k2 s.
Proof.
  revert k2 s. induction k1 as [|k1 IH]; intros k2 s H1 H2.
  - destruct s; [|simpl in H1; lia]. by destruct k2.
  - destruct k2 as [|k2]; [destruct s; [done|simpl in H2; lia]|].
    simpl. destruct (search s) as [[[b m] r]|] eqn:Hs; [|done].
    apply search_shorter in Hs. f_equal. apply IH; lia.
Qed.

Lemma occurrences_eq s :
  occurrences s =
    match search s with
    | None => []
    | Some (_, m, rest) => m :: occurrences rest
    end.
Proof.
  unfold occurrences. destruct s as [|c s]; [done|].
  simpl String.length. cbn [occurrences_loop].
  destruct (search (String c s)) as [[[b m] r]|] eqn:Hs; [|done].
  apply search_shorter in Hs. simpl in Hs. f_equal.
  apply occurrences_loop_enough; lia.
Qed.

(** The matches of the left-to-right search (each search starts where the
    match before it ends) are as many in the new text as in the old, each
    now the written one. *)
Lemma occurrences_updatedConfig config F :
  contains_byte "$" F = false -> contains_byte DQ F = false ->
  occurrences (updatedConfig config F) =
    map (fun _ => written F) (occurrences config).
Proof.
  intros Hd Hq.
  remember (String.length config) as n eqn:Hn. revert config Hn.
  induction n as [n IH] using lt_wf_ind. intros config ->.
  rewrite (occurrences_eq config).
  destruct (search config) as [[[b m] r]|] eqn:Hs.
  - rewrite occurrences_eq, (search_updatedConfig _ _ _ _ _ Hd Hq Hs).
    simpl. f_equal. eapply IH; [|reflexivity]. by eapply search_shorter.
  - rewrite updatedConfig_no_match, occurrences_eq, Hs; [done|].
    unfold FindStringSubmatch. by rewrite Hs.
Qed.

(** *** No match and no assignment *)

Lemma search_None s before t :
  search s = None -> s = before +:+ t -> match_here t = None.
Proof.
  revert s. induction before as [|c b IH]; intros s Hs ->.
  - rewrite Str.app_empty_l, search_eq in Hs.
    by destruct (match_here t) as [[cap r]|].
  - rewrite Str.app_cons, search_eq in Hs.
    destruct (match_here (String c (b +:+ t))) as [[cap r]|]; [done|].
    destruct (search (b +:+ t)) as [[[b' m'] r']|] eqn:Hs'; [done|].
    by eapply IH.
Qed.

(** [FindStringSubmatch] finds nothing exactly in a text without an
    assignment. *)
Lemma FindStringSubmatch_None config :
  FindStringSubmatch config = None <-> ~ has_assignment config.
Proof.
  unfold FindStringSubmatch. split.
  - destruct (search config) as [[[b m] r]|] eqn:Hs; [done|]. intros _.
    intros (before & w1 & w2 & value & after & Hc & Hw1 & Hw2 & Hne & Hq).
    assert (match_here (literal +:+ w1 +:+ String "=" (w2 +:+ quoted value +:+ after))
            = Some (value, after)) as Hm.
    { apply match_here_Some. by exists w1, w2. }
    by rewrite (search_None _ _ _ Hs Hc) in Hm.
  - intros Hno. destruct (search config) as [[[b m] r]|] eqn:Hs; [|done].
    destruct Hno. apply search_Some in Hs as (t & -> & Ht & _).
    apply match_here_Some in Ht as (w1 & w2 & -> & Hw1 & Hw2 & Hne & Hq).
    by exists b, w1, w2, (group1 m), r.
Qed.

Lemma FindStringSubmatch_Some config :
  FindStringSubmatch config <> None <-> has_assignment config.
Proof.
  rewrite FindStringSubmatch_None.
  split; [|tauto]. intros Hnn.
  destruct (FindStringSubmatch config) eqn:Hf.
  - destruct (search config) as [[[b m] r]|] eqn:Hs.
    + apply search_Some in Hs as (t & -> & Ht & _).
      apply match_here_Some in Ht as (w1 & w2 & -> & Hw1 & Hw2 & Hne & Hq).
      by exists b, w1, w2, (group1 m), r.
    + unfold FindStringSubmatch in Hf. by rewrite Hs in Hf.
  - apply FindStringSubmatch_None in Hf. tauto.
Qed.

End ConfigFacts.

(** ** The commands *)

(** Unfold the command combinators and the lifted calls. *)
Tactic Notation "run_cmd" :=
  cbv [cmd_bind cmd_ret on_error when os_Exit fmt_Print fmt_Println
       os_Getwd os_Stat os_ReadFile os_WriteFile os_MkdirAll
       cmd_CombinedOutput elapsed_Seconds start];
  cbn [world stdout fst snd]; rewrite <- ?app_assoc; cbn [app].

Tactic Notation "run_cmd" "in" hyp(H) :=
  cbv [cmd_bind cmd_ret on_error when os_Exit fmt_Print fmt_Println
       os_Getwd os_Stat os_ReadFile os_WriteFile os_MkdirAll
       cmd_CombinedOutput elapsed_Seconds start] in H;
  cbn [world stdout fst snd] in H; rewrite <- ?app_assoc in H; cbn [app] in H.

Section Commands.
Context {World : Type} `{OS World}.

(** [main] on each command word. *)
Lemma main_add (filename : string) (rest : list string) :
  main (ADD :: filename :: rest) = addMicroscriptFile filename.
Proof. reflexivity. Qed.

Lemma main_new (projectName : string) (rest : list string) :
  main (NEW :: projectName :: rest) = createProject projectName true.
Proof. reflexivity. Qed.

Lemma main_init (projectName : string) (rest : list string) :
  main (INIT :: projectName :: rest) = createProject projectName false.
Proof. reflexivity. Qed.

Lemma main_run (rest : list string) :
  main (RUN :: rest) = runProject (RUN :: rest).
Proof. reflexivity. Qed.

(** C7. In a directory without bituin.toml, [add F] prints the message
    that this is not a project directory, exits with status 1 and leaves
    the world as it found it, whatever [F] is. *)
Theorem add_outside_project (filename : string) (w : World) (cwd : string) :
  Getwd w = (cwd, None) ->
  IsNotExist (Stat w (Join [cwd; "bituin.toml"])) = true ->
  main [ADD; filename] (start w)
  = (Exit 1, State w ["Error: Not in a Bituin project directory" +:+ LF])
  /\ exit_status (fst (main [ADD; filename] (start w))) = 1.
Proof.
  intros Hcwd Hstat. rewrite main_add.
  assert (addMicroscriptFile filename (start w)
          = (Exit 1, State w ["Error: Not in a Bituin project directory" +:+ LF])) as ->.
  { unfold addMicroscriptFile. run_cmd. rewrite Hcwd. run_cmd.
    by rewrite Hstat. }
  done.
Qed.

(** C6. When something exists at the path of the new project ([Stat] does
    not say that it is missing), [new N] prints the already-exists message,
    exits with status 1 and leaves the world as it found it: no call that
    changes the world has been made. *)
Theorem new_on_existing_path (projectName : string) (w : World) (cwd : string) :
  Getwd w = (cwd, None) ->
  IsNotExist (Stat w (Join [cwd; projectName])) = false ->
  main [NEW; projectName] (start w)
  = (Exit 1, State w ["Error: Directory " +:+ quoted projectName
                      +:+ " already exists." +:+ LF])
  /\ exit_status (fst (main [NEW; projectName] (start w))) = 1.
Proof.
  intros Hcwd Hstat. rewrite main_new.
  assert (createProject projectName true (start w)
          = (Exit 1, State w ["Error: Directory " +:+ quoted projectName
                              +:+ " already exists." +:+ LF])) as ->.
  { unfold createProject. run_cmd. rewrite Hcwd. run_cmd. by rewrite Hstat. }
  done.
Qed.

Lemma print_all_app (lines : list string) (st : state World) :
  print_all lines st = (Next tt, State (world st) (stdout st ++ lines)).
Proof.
  revert st. induction lines as [|l lines IH]; intros [w out].
  - simpl. run_cmd. by rewrite app_nil_r.
  - cbn [print_all]. run_cmd. rewrite IH. cbn [world stdout].
    by rewrite <- app_assoc.
Qed.

Lemma main_missing_argument (command : string) (w : World) :
  command = NEW \/ command = INIT \/ command = ADD ->
  main [command] (start w)
  = (Exit 1, State w ((missing_argument command +:+ LF) :: usage_text)).
Proof.
  intros [-> | [-> | ->]]; cbv [main NEW INIT ADD HELP VERSION_CMD AUTHOR_CMD];
    cbn [String.eqb Ascii.eqb Bool.eqb length Nat.ltb Nat.leb];
    unfold printUsage; run_cmd; rewrite print_all_app; reflexivity.
Qed.

(** C8, as the code has it. With no argument after it, each of [new],
    [init] and [add] prints its error and the whole usage text and exits
    with status 1, the world untouched. With one argument or more it runs
    on the first argument and ignores the others: the check is
    [len(args) < 2]. *)
Theorem commands_need_an_argument :
  (forall (command : string) (w : World),
     command = NEW \/ command = INIT \/ command = ADD ->
     main [command] (start w)
     = (Exit 1, State w ((missing_argument command +:+ LF) :: usage_text))
     /\ exit_status (fst (main [command] (start w))) <> 0)
  /\ (forall (a : string) (rest : list string),
        main (NEW :: a :: rest) = createProject a true
        /\ main (INIT :: a :: rest) = createProject a false
        /\ main (ADD :: a :: rest) = addMicroscriptFile a).
Proof.
  split.
  - intros command w Hc. rewrite (main_missing_argument _ _ Hc). done.
  - intros a rest. split_and!; reflexivity.
Qed.

(** The argument scan, in closed form. *)
Lemma scan_args_spec (rest : list string) (isPreview : bool) (targetFile : string) :
  scan_args rest isPreview targetFile
  = ((isPreview || bool_decide (PREVIEW_FLAG ∈ rest))%bool,
     default targetFile (last (filter (fun a => a <> PREVIEW_FLAG) rest))).
Proof.
  revert isPreview targetFile. induction rest as [|arg rest IH]; intros p t.
  - simpl. by rewrite orb_false_r.
  - cbn [scan_args]. destruct (String.eqb_spec arg PREVIEW_FLAG) as [->|Hne].
    + rewrite IH. rewrite filter_cons_False by (intros Hf; by apply Hf).
      f_equal.
      rewrite (bool_decide_eq_true_2 (PREVIEW_FLAG ∈ PREVIEW_FLAG :: rest))
        by (by left).
      by rewrite orb_true_r.
    + rewrite IH. rewrite filter_cons_True by done.
      f_equal.
      * destruct p; [done|]. cbn [orb].
        apply bool_decide_ext. rewrite elem_of_cons.
        split; [by right|]. intros [Heq|Hin]; [by destruct Hne|done].
      * rewrite last_cons.
        by destruct (last (filter (fun a => a <> PREVIEW_FLAG) rest)).
Qed.

(** *** The runner *)

Lemma runProject_entry_readable args w cwd config isPreview targetFile :
  parse_run_args args = (isPreview, targetFile) ->
  readable_project w cwd config ->
  runProject_entry args (start w)
  = match determine_main_file cwd (Join [cwd; "bituin.toml"]) config targetFile
            (start w) with
    | (Next (mainFile, mainFileName), st) =>
        (Next (isPreview, cwd, mainFile, mainFileName), st)
    | (Exit code, st) => (Exit code, st)
    end.
Proof.
  intros Hp (Hcwd & Hstat & Hread). unfold runProject_entry. rewrite Hp.
  run_cmd. rewrite Hcwd. run_cmd. rewrite Hstat. run_cmd. rewrite Hread.
  run_cmd. destruct (determine_main_file _ _ _ _ _) as [[[mf mfn]|code] st]; reflexivity.
Qed.

Lemma runProject_after_entry args w isPreview cwd mainFile mainFileName st :
  runProject_entry args (start w)
  = (Next (isPreview, cwd, mainFile, mainFileName), st) ->
  runProject args (start w)
  = runProject_execute isPreview cwd mainFile mainFileName st.
Proof. intros He. unfold runProject, cmd_bind. by rewrite He. Qed.

(** C5. Without a target on the command line and without an assignment in
    the config, the main file is src/main.microscript joined to the working
    directory: nothing is written, and the run goes on (the existence
    check, the interpreter) with that path. *)
Theorem run_default_main_file
    (args : list string) (w : World) (cwd config : string) (isPreview : bool) :
  parse_run_args args = (isPreview, EmptyString) ->
  readable_project w cwd config ->
  ~ has_assignment config ->
  runProject_entry args (start w)
  = (Next (isPreview, cwd, Join [cwd; "src"; "main.microscript"],
           "main.microscript"), start w)
  /\ runProject args (start w)
     = runProject_execute isPreview cwd (Join [cwd; "src"; "main.microscript"])
         "main.microscript" (start w).
Proof.
  intros Hp Hw Hno%ConfigFacts.FindStringSubmatch_None.
  assert (runProject_entry args (start w)
          = (Next (isPreview, cwd, Join [cwd; "src"; "main.microscript"],
                   "main.microscript"), start w)) as He.
  { rewrite (runProject_entry_readable _ _ _ _ _ _ Hp Hw).
    unfold determine_main_file. cbn [String.eqb negb]. by rewrite Hno. }
  split; [exact He|]. by apply runProject_after_entry.
Qed.

Lemma determine_main_file_target cwd path config F w w' :
  F <> EmptyString ->
  WriteFile w path (updatedConfig config F) = (w', None) ->
  determine_main_file cwd path config F (start w)
  = (Next (Join [cwd; "src"; F], F), start w').
Proof.
  intros HF%String.eqb_neq Hw. unfold determine_main_file. rewrite HF.
  cbn [negb]. run_cmd. by rewrite Hw.
Qed.

(** C9. With a target [F] on the command line and no assignment in the
    config, the text written back to bituin.toml is the text that was read,
    byte for byte; and once it is written the run goes on with src/F
    joined to the working directory as its main file. *)
Theorem run_target_no_assignment
    (args : list string) (w w' : World) (cwd config F : string) (isPreview : bool) :
  parse_run_args args = (isPreview, F) -> F <> EmptyString ->
  readable_project w cwd config ->
  ~ has_assignment config ->
  WriteFile w (Join [cwd; "bituin.toml"]) config = (w', None) ->
  updatedConfig config F = config
  /\ runProject_entry args (start w)
     = (Next (isPreview, cwd, Join [cwd; "src"; F], F), start w')
  /\ runProject args (start w)
     = runProject_execute isPreview cwd (Join [cwd; "src"; F]) F (start w')
  /\ (read_after_write -> ReadFile w' (Join [cwd; "bituin.toml"]) = (config, None)).
Proof.
  intros Hp HF Hw Hno%ConfigFacts.FindStringSubmatch_None Hwr.
  pose proof (ConfigFacts.updatedConfig_no_match config F Hno) as Hsame.
  assert (runProject_entry args (start w)
          = (Next (isPreview, cwd, Join [cwd; "src"; F], F), start w')) as He.
  { rewrite (runProject_entry_readable _ _ _ _ _ _ Hp Hw).
    rewrite (determine_main_file_target _ _ _ _ _ w' HF); [done|].
    by rewrite Hsame. }
  split_and!; [done|done|by apply runProject_after_entry|].
  intros Hlaw. by eapply Hlaw.
Qed.

Lemma runProject_execute_missing isPreview cwd mainFile mainFileName st :
  IsNotExist (Stat (world st) mainFile) = true ->
  runProject_execute isPreview cwd mainFile mainFileName st
  = (Exit 1, State (world st) (stdout st ++ [main_file_not_found mainFile])).
Proof.
  destruct st as [w out]. cbn [world stdout]. intros Hs.
  unfold runProject_execute. run_cmd. by rewrite Hs.
Qed.

(** C1, as the code has it. With a target [F] without dollar sign on the
    command line, in a project whose config can be read and written, the
    config with its assignments rewritten is on disk before the main file
    is looked for and before the interpreter is started: the rest of the
    run starts in the world the write left. When src/F is missing the run
    ends there with status 1, in that world. When the config had an
    assignment and [F] has no double quote, the config on disk reads back
    src/F as its main file. *)
Theorem run_writes_config_first
    (args : list string) (w w' : World) (cwd config F : string) (isPreview : bool) :
  parse_run_args args = (isPreview, F) -> F <> EmptyString ->
  contains_byte "$" F = false ->
  readable_project w cwd config ->
  WriteFile w (Join [cwd; "bituin.toml"]) (updatedConfig config F) = (w', None) ->
  runProject args (start w)
  = runProject_execute isPreview cwd (Join [cwd; "src"; F]) F (start w')
  /\ (IsNotExist (Stat w' (Join [cwd; "src"; F])) = true ->
      runProject args (start w)
      = (Exit 1, State w' [main_file_not_found (Join [cwd; "src"; F])]))
  /\ (read_after_write -> has_assignment config ->
      contains_byte DQ F = false ->
      exists data,
        ReadFile w' (Join [cwd; "bituin.toml"]) = (data, None)
        /\ Regexp.FindStringSubmatch data = Some (written F)).
Proof.
  intros Hp HF Hd Hw Hwr.
  assert (runProject args (start w)
          = runProject_execute isPreview cwd (Join [cwd; "src"; F]) F (start w'))
    as Hrun.
  { apply runProject_after_entry.
    rewrite (runProject_entry_readable _ _ _ _ _ _ Hp Hw).
    by rewrite (determine_main_file_target _ _ _ _ _ w' HF). }
  split_and!.
  - exact Hrun.
  - intros Hmiss. rewrite Hrun. by rewrite runProject_execute_missing.
  - intros Hlaw Has%ConfigFacts.FindStringSubmatch_Some Hq.
    exists (updatedConfig config F). split; [by eapply Hlaw|].
    by apply ConfigFacts.FindStringSubmatch_updatedConfig.
Qed.

Lemma runProject_entry_preview args w isPreview cwd mainFile mainFileName st :
  runProject_entry args (start w)
  = (Next (isPreview, cwd, mainFile, mainFileName), st) ->
  isPreview = bool_decide (PREVIEW_FLAG ∈ drop 1 args).
Proof.
  unfold runProject_entry, parse_run_args. rewrite scan_args_spec. cbn [orb].
  run_cmd. destruct (Getwd w) as [c [e|]]; run_cmd; [done|].
  destruct (IsNotExist (Stat w (Join [c; "bituin.toml"]))); run_cmd; [done|].
  destruct (ReadFile w (Join [c; "bituin.toml"])) as [data [e|]]; run_cmd; [done|].
  destruct (determine_main_file _ _ _ _ _) as [[[mf mfn]|code] st']; [|done].
  by intros [= <- _ _ _ _].
Qed.

(** C10. Once the main file is found, the run fails on a missing
    interpreter, printing its message after the banner and exiting with
    status 1 in an unchanged world, exactly when [Stat] says that nothing
    exists at the executable name joined to the parent of the working
    directory. The name is microscript-preview.exe when the flag is among
    the arguments after [run] and microscript.exe otherwise. No other path
    is looked at: when that one exists, it is the program that is started,
    on [run] and the main file. *)
Theorem run_interpreter_lookup
    (args : list string) (w : World) (isPreview : bool)
    (cwd mainFile mainFileName : string) (st : state World) :
  runProject_entry args (start w)
  = (Next (isPreview, cwd, mainFile, mainFileName), st) ->
  IsNotExist (Stat (world st) mainFile) = false ->
  (runProject args (start w)
   = (Exit 1, State (world st)
                (stdout st ++ [running_banner isPreview mainFileName;
                               executable_not_found (executable_name isPreview)]))
   <-> IsNotExist (Stat (world st) (Join [cwd; ".."; executable_name isPreview]))
       = true)
  /\ (IsNotExist (Stat (world st) (Join [cwd; ".."; executable_name isPreview]))
      = false ->
      world (snd (runProject args (start w)))
      = fst (fst (CombinedOutput (world st)
                    (Join [cwd; ".."; executable_name isPreview])
                    ["run"; mainFile])))
  /\ executable_name isPreview
     = (if bool_decide (PREVIEW_FLAG ∈ drop 1 args)
        then "microscript-preview.exe" else "microscript.exe").
Proof.
  intros He Hmain. rewrite <- (runProject_entry_preview _ _ _ _ _ _ _ He).
  rewrite (runProject_after_entry _ _ _ _ _ _ _ He).
  destruct st as [w1 out]. cbn [world stdout] in *.
  unfold runProject_execute. run_cmd. rewrite Hmain. run_cmd.
  destruct (IsNotExist (Stat w1 (Join [cwd; ".."; executable_name isPreview])))
    eqn:Hexe; run_cmd.
  - split_and!; done.
  - assert (forall (r : step unit) (w2 : World) (l : list string) (x : string),
              (r, State w2 (out ++ running_banner isPreview mainFileName
                                   :: (red x +:+ LF) :: l))
              <> (Exit 1, State w1 (out ++ [running_banner isPreview mainFileName;
                    executable_not_found (executable_name isPreview)]))) as Hne.
    { intros r w2 l x [= _ _ Hout]. apply app_inv_head in Hout.
      injection Hout as Hout _. discriminate Hout. }
    destruct (CombinedOutput w1 (Join [cwd; ".."; executable_name isPreview])
                ["run"; mainFile]) as [[w2 output] [e|]];
      destruct (0 <? String.length output)%nat; run_cmd;
      (split_and!; [split; [intros Heq; exfalso|done]|done|done]);
      solve [discriminate Heq | by eapply Hne].
Qed.

(** C4, as the code has it. [run] is dispatched whatever follows it,
    without a check of the number of arguments, and every list of
    arguments takes one of two ways. Preview mode is on exactly when the
    flag is among the arguments. When the last of the other arguments is
    not empty it is the target, wherever the flag stands: the main file of
    the run is the target below src, its name is the target, and (target
    without dollar sign) the run is the rewrite of the config for the
    target followed by the rest of the run on that main file. When the last
    of the other arguments is empty, or there is none, the run has no
    target: nothing is written and the main file comes from the config, or
    is the default. *)
Theorem run_uses_scanned_arguments
    (rest : list string) (w : World) (cwd config : string) :
  readable_project w cwd config ->
  main (RUN :: rest) = runProject (RUN :: rest)
  /\ (forall target,
        last (filter (fun a => a <> PREVIEW_FLAG) rest) = Some target ->
        target <> EmptyString ->
        (forall isPreview dir mainFile mainFileName st,
           runProject_entry (RUN :: rest) (start w)
           = (Next (isPreview, dir, mainFile, mainFileName), st) ->
           (isPreview, dir, mainFile, mainFileName)
           = (bool_decide (PREVIEW_FLAG ∈ rest), cwd,
              Join [cwd; "src"; target], target))
        /\ (forall w',
              contains_byte "$" target = false ->
              WriteFile w (Join [cwd; "bituin.toml"]) (updatedConfig config target)
              = (w', None) ->
              main (RUN :: rest) (start w)
              = runProject_execute (bool_decide (PREVIEW_FLAG ∈ rest)) cwd
                  (Join [cwd; "src"; target]) target (start w')))
  /\ (default EmptyString (last (filter (fun a => a <> PREVIEW_FLAG) rest))
      = EmptyString ->
      main (RUN :: rest) (start w)
      = match Regexp.FindStringSubmatch config with
        | Some m =>
            runProject_execute (bool_decide (PREVIEW_FLAG ∈ rest)) cwd
              (Join [cwd; Regexp.group1 m]) (Base (Join [cwd; Regexp.group1 m]))
              (start w)
        | None =>
            runProject_execute (bool_decide (PREVIEW_FLAG ∈ rest)) cwd
              (Join [cwd; "src"; "main.microscript"]) "main.microscript"
              (start w)
        end).
Proof.
  intros Hw.
  assert (parse_run_args (RUN :: rest)
          = (bool_decide (PREVIEW_FLAG ∈ rest),
             default EmptyString
               (last (filter (fun a => a <> PREVIEW_FLAG) rest)))) as Hp.
  { unfold parse_run_args.
    change (drop 1 (RUN :: rest)) with rest. by rewrite scan_args_spec. }
  split_and!.
  - reflexivity.
  - intros target Hlast Hne. rewrite Hlast in Hp.
    change (default EmptyString (Some target)) with target in Hp. split.
    + intros isPreview dir mainFile mainFileName st.
      rewrite (runProject_entry_readable _ _ _ _ _ _ Hp Hw).
      unfold determine_main_file.
      apply String.eqb_neq in Hne. rewrite Hne. cbn [negb]. run_cmd.
      destruct (WriteFile w (Join [cwd; "bituin.toml"])
                  (updatedConfig config target)) as [w' [e|]]; run_cmd; [done|].
      by intros [= <- <- <- <- _].
    + intros w' Hd Hwr. rewrite main_run. apply runProject_after_entry.
      rewrite (runProject_entry_readable _ _ _ _ _ _ Hp Hw).
      by rewrite (determine_main_file_target _ _ _ _ _ w' Hne).
  - intros Hnone. rewrite Hnone in Hp. rewrite main_run.
    destruct (Regexp.FindStringSubmatch config) as [m|] eqn:Hm;
      apply runProject_after_entry;
      rewrite (runProject_entry_readable _ _ _ _ _ _ Hp Hw);
      unfold determine_main_file; cbn [String.eqb negb]; by rewrite Hm.
Qed.

End Commands.

(** ** The rewrite, occurrence by occurrence *)

(** C2, as the code has it. The rewrite replaces every assignment the
    left-to-right search finds, each search starting where the match before
    it ends: for a target without dollar sign, the text up to a match is
    kept, the match is replaced by the assignment for the target, and the
    text after the match is rewritten in the same way. For a target that
    has no double quote either, the search finds as many matches in the new
    text as in the old one, each now the assignment for the target. *)
Theorem rewrite_replaces_every_assignment (config F : string) :
  contains_byte "$" F = false ->
  (forall before m rest,
     Regexp.search config = Some (before, m, rest) ->
     updatedConfig config F
     = before +:+ main_file_assignment F +:+ updatedConfig rest F)
  /\ (contains_byte DQ F = false ->
      occurrences (updatedConfig config F)
      = map (fun _ => written F) (occurrences config)).
Proof.
  intros Hd. split.
  - intros before m rest Hs. rewrite ConfigFacts.updatedConfig_eq, Hs.
    by rewrite RegexpFacts.expand_plain by by apply ConfigFacts.assignment_plain.
  - intros Hq. by apply ConfigFacts.occurrences_updatedConfig.
Qed.

Lemma rewrite_replaces_every_assignment_witness :
  updatedConfig two_assignments "x.microscript"
  = EmptyString
    +:+ main_file_assignment "x.microscript"
    +:+ updatedConfig (LF +:+ "main_file = " +:+ quoted "src/b.microscript")
          "x.microscript"
  /\ occurrences (updatedConfig two_assignments "x.microscript")
     = [written "x.microscript"; written "x.microscript"].
Proof.
  destruct (rewrite_replaces_every_assignment two_assignments "x.microscript")
    as [Hstep Hall]; [reflexivity|].
  split.
  - apply (Hstep EmptyString (written "a.microscript")). vm_compute. reflexivity.
  - rewrite Hall; vm_compute; reflexivity.
Defined.

(** The claim C2 fails on a config with two assignments: the code rewrites
    both, the rewrite of the first occurrence only keeps the second. *)
Lemma rewrite_first_only_counterexample :
  occurrences two_assignments = [written "a.microscript"; written "b.microscript"]
  /\ updatedConfig two_assignments "x.microscript"
     = main_file_assignment "x.microscript" +:+ LF
       +:+ main_file_assignment "x.microscript"
  /\ spec_rewriteMainFile two_assignments "x.microscript"
     = main_file_assignment "x.microscript" +:+ LF
       +:+ main_file_assignment "b.microscript"
  /\ updatedConfig two_assignments "x.microscript"
     <> spec_rewriteMainFile two_assignments "x.microscript".
Proof. split_and!; [vm_compute; reflexivity..|vm_compute; discriminate]. Qed.

(** ** A target with a dollar sign *)

(** C3 at the target [$1]. [ReplaceAllString] expands the template, so the
    reference [$1] in the written path is replaced by the old value: the
    path [src/$1] has no double quote, the config has an assignment, and
    what is read back is src/src/main.microscript. *)
Theorem dollar_target_not_read_back :
  contains_byte DQ ("src/" +:+ "$1") = false
  /\ Regexp.FindStringSubmatch (getBituinToml "demo")
     = Some (written "main.microscript")
  /\ updatedConfig (getBituinToml "demo") "$1"
     = "[package]" +:+ LF +:+ "name = " +:+ quoted "demo" +:+ LF
       +:+ "main_file = " +:+ quoted "src/src/main.microscript"
  /\ Regexp.FindStringSubmatch (updatedConfig (getBituinToml "demo") "$1")
     = Some (written "src/main.microscript")
  /\ Regexp.group1 (written "src/main.microscript") <> "src/" +:+ "$1".
Proof. split_and!; [vm_compute; reflexivity..|vm_compute; discriminate]. Qed.

(** ** The in-memory file system *)

Lemma MemFS_read_after_write : @read_after_write MemFS.fs MemFS.mem_os.
Proof.
  intros w w' path data. cbn. unfold MemFS.WriteFile, MemFS.ReadFile. intros Hw.
  destruct (MemFS.nodes w !! path) as [[c|]|] eqn:Hp;
    destruct (MemFS.nodes w !! MemFS.parent path) as [[c'|]|] eqn:Hq;
    inversion Hw; subst; cbn; by rewrite lookup_insert_eq.
Qed.

(** ** The commands on concrete worlds *)

Lemma add_outside_project_witness :
  main [ADD; "util.microscript"] (start MemFS.empty_dir)
  = (Exit 1, State MemFS.empty_dir ["Error: Not in a Bituin project directory" +:+ LF])
  /\ exit_status (fst (main [ADD; "util.microscript"] (start MemFS.empty_dir))) = 1.
Proof.
  apply (add_outside_project "util.microscript" MemFS.empty_dir "/work");
    vm_compute; reflexivity.
Defined.

Lemma new_on_existing_path_witness :
  main [NEW; "demo"] (start (MemFS.chdir "/work" (MemFS.project no_assignment)))
  = (Exit 1, State (MemFS.chdir "/work" (MemFS.project no_assignment))
               ["Error: Directory " +:+ quoted "demo" +:+ " already exists." +:+ LF])
  /\ exit_status (fst (main [NEW; "demo"]
                         (start (MemFS.chdir "/work" (MemFS.project no_assignment)))))
     = 1.
Proof.
  apply (new_on_existing_path "demo"
           (MemFS.chdir "/work" (MemFS.project no_assignment)) "/work");
    vm_compute; reflexivity.
Defined.

(** The claim C8 fails on [new a b]: two arguments follow the command, and
    the project a is created with exit status 0. *)
Lemma new_with_two_arguments_counterexample :
  fst (main [NEW; "a"; "b"] (start MemFS.empty_dir)) = Next tt
  /\ exit_status (fst (main [NEW; "a"; "b"] (start MemFS.empty_dir))) = 0
  /\ stdout (snd (main [NEW; "a"; "b"] (start MemFS.empty_dir)))
     = [ "Bituin project " +:+ quoted "a" +:+ " created successfully!" +:+ LF;
         LF +:+ "To get started:" +:+ LF;
         "  cd a" +:+ LF;
         "  bituin run" +:+ LF ]
  /\ MemFS.ReadFile (world (snd (main [NEW; "a"; "b"] (start MemFS.empty_dir))))
       "/work/a/bituin.toml"
     = (getBituinToml "a", None).
Proof. split_and!; vm_compute; reflexivity. Qed.

Lemma commands_need_an_argument_witness :
  main [INIT] (start MemFS.empty_dir)
  = (Exit 1, State MemFS.empty_dir
               (("Error: Project name required for init command" +:+ LF)
                  :: usage_text))
  /\ exit_status (fst (main [INIT] (start MemFS.empty_dir))) <> 0.
Proof.
  destruct (commands_need_an_argument (World := MemFS.fs)) as [Hnone _].
  apply (Hnone INIT MemFS.empty_dir). right. left. reflexivity.
Defined.

Lemma run_uses_scanned_arguments_witness :
  main [RUN; "a.microscript"; PREVIEW_FLAG; "extra.microscript"]
    (start (MemFS.project (getBituinToml "demo")))
  = runProject_execute true "/work/demo" "/work/demo/src/extra.microscript"
      "extra.microscript"
      (start (MemFS.after_write (getBituinToml "demo") "extra.microscript"))
  /\ main [RUN; PREVIEW_FLAG] (start (MemFS.project (getBituinToml "demo")))
     = runProject_execute true "/work/demo" "/work/demo/src/main.microscript"
         "main.microscript" (start (MemFS.project (getBituinToml "demo"))).
Proof.
  split.
  - destruct (run_uses_scanned_arguments
                ["a.microscript"; PREVIEW_FLAG; "extra.microscript"]
                (MemFS.project (getBituinToml "demo")) "/work/demo"
                (getBituinToml "demo"))
      as (_ & Htarget & _); [split_and!; vm_compute; reflexivity|].
    destruct (Htarget "extra.microscript") as [_ Hrun];
      [reflexivity|discriminate|].
    apply (Hrun (MemFS.after_write (getBituinToml "demo") "extra.microscript")).
    + reflexivity.
    + vm_compute. reflexivity.
  - destruct (run_uses_scanned_arguments [PREVIEW_FLAG]
                (MemFS.project (getBituinToml "demo")) "/work/demo"
                (getBituinToml "demo"))
      as (_ & _ & Hnone); [split_and!; vm_compute; reflexivity|].
    exact (Hnone eq_refl).
Defined.

(** The claim C4 fails on [run x.microscript] followed by an empty
    argument: the last argument that is not the flag is the empty one, and
    it is not taken as a target. The run is the run without a target: it
    leaves the config as it is and runs the main file the config names. *)
Lemma run_empty_last_argument_counterexample :
  last (filter (fun a => a <> PREVIEW_FLAG) ["x.microscript"; EmptyString])
  = Some EmptyString
  /\ main [RUN; "x.microscript"; EmptyString]
       (start (MemFS.project (getBituinToml "demo")))
     = main [RUN] (start (MemFS.project (getBituinToml "demo")))
  /\ fst (main [RUN; "x.microscript"; EmptyString]
            (start (MemFS.project (getBituinToml "demo"))))
     = Next tt
  /\ world (snd (main [RUN; "x.microscript"; EmptyString]
                   (start (MemFS.project (getBituinToml "demo")))))
     = MemFS.project (getBituinToml "demo")
  /\ head (stdout (snd (main [RUN; "x.microscript"; EmptyString]
                          (start (MemFS.project (getBituinToml "demo"))))))
     = Some (running_banner false "main.microscript").
Proof. split_and!; vm_compute; reflexivity. Qed.

Lemma run_default_main_file_witness :
  runProject_entry [RUN; PREVIEW_FLAG] (start (MemFS.project no_assignment))
  = (Next (true, "/work/demo", "/work/demo/src/main.microscript",
           "main.microscript"), start (MemFS.project no_assignment))
  /\ runProject [RUN; PREVIEW_FLAG] (start (MemFS.project no_assignment))
     = runProject_execute true "/work/demo" "/work/demo/src/main.microscript"
         "main.microscript" (start (MemFS.project no_assignment)).
Proof.
  destruct (run_default_main_file [RUN; PREVIEW_FLAG]
              (MemFS.project no_assignment) "/work/demo" no_assignment true)
    as [Hentry Hrun].
  - reflexivity.
  - split_and!; vm_compute; reflexivity.
  - apply ConfigFacts.FindStringSubmatch_None. vm_compute. reflexivity.
  - split; [exact Hentry|exact Hrun].
Defined.

Lemma run_target_no_assignment_witness :
  updatedConfig no_assignment "extra.microscript" = no_assignment
  /\ runProject [RUN; "extra.microscript"] (start (MemFS.project no_assignment))
     = runProject_execute false "/work/demo" "/work/demo/src/extra.microscript"
         "extra.microscript"
         (start (MemFS.after_write no_assignment "extra.microscript"))
  /\ MemFS.ReadFile (MemFS.after_write no_assignment "extra.microscript")
       "/work/demo/bituin.toml"
     = (no_assignment, None).
Proof.
  destruct (run_target_no_assignment [RUN; "extra.microscript"]
              (MemFS.project no_assignment)
              (MemFS.after_write no_assignment "extra.microscript")
              "/work/demo" no_assignment "extra.microscript" false)
    as (Hsame & _ & Hrun & Hread).
  - reflexivity.
  - discriminate.
  - split_and!; vm_compute; reflexivity.
  - apply ConfigFacts.FindStringSubmatch_None. vm_compute. reflexivity.
  - vm_compute. reflexivity.
  - split_and!; [exact Hsame|exact Hrun|exact (Hread MemFS_read_after_write)].
Defined.

Lemma run_writes_config_first_witness :
  runProject [RUN; "extra.microscript"] (start (MemFS.project (getBituinToml "demo")))
  = (Exit 1, State (MemFS.after_write (getBituinToml "demo") "extra.microscript")
               [main_file_not_found "/work/demo/src/extra.microscript"])
  /\ exists data,
       MemFS.ReadFile (MemFS.after_write (getBituinToml "demo") "extra.microscript")
         "/work/demo/bituin.toml" = (data, None)
       /\ Regexp.FindStringSubmatch data = Some (written "extra.microscript").
Proof.
  destruct (run_writes_config_first [RUN; "extra.microscript"]
              (MemFS.project (getBituinToml "demo"))
              (MemFS.after_write (getBituinToml "demo") "extra.microscript")
              "/work/demo" (getBituinToml "demo") "extra.microscript" false)
    as (_ & Hfail & Hread).
  - reflexivity.
  - discriminate.
  - reflexivity.
  - split_and!; vm_compute; reflexivity.
  - vm_compute. reflexivity.
  - split.
    + apply Hfail. vm_compute. reflexivity.
    + apply Hread.
      * exact MemFS_read_after_write.
      * apply ConfigFacts.FindStringSubmatch_Some. vm_compute. discriminate.
      * reflexivity.
Defined.

(** The claim C1 fails on a config without an assignment: the run with the
    target extra.microscript fails on the missing main file, and the config
    it leaves on disk is the old one, which names no main file. It fails
    too on a target with a double quote in it, which closes the value
    early: the config then names what stands before the quote. *)
Lemma run_leaves_config_counterexample :
  (fst (main [RUN; "extra.microscript"] (start (MemFS.project no_assignment)))
   = Exit 1
   /\ stdout (snd (main [RUN; "extra.microscript"]
                     (start (MemFS.project no_assignment))))
      = [main_file_not_found "/work/demo/src/extra.microscript"]
   /\ MemFS.ReadFile
        (world (snd (main [RUN; "extra.microscript"]
                       (start (MemFS.project no_assignment)))))
        "/work/demo/bituin.toml"
      = (no_assignment, None)
   /\ Regexp.FindStringSubmatch no_assignment = None)
  /\ (fst (main [RUN; "a" +:+ String DQ "b"]
             (start (MemFS.project (getBituinToml "demo"))))
      = Exit 1
      /\ Regexp.group1 <$>
           Regexp.FindStringSubmatch
             (fst (MemFS.ReadFile
                     (world (snd (main [RUN; "a" +:+ String DQ "b"]
                                    (start (MemFS.project (getBituinToml "demo"))))))
                     "/work/demo/bituin.toml"))
         = Some "src/a").
Proof. split_and!; vm_compute; reflexivity. Qed.

Lemma run_interpreter_lookup_witness :
  MemFS.Stat MemFS.interpreter_inside "/work/demo/microscript.exe" = None
  /\ runProject [RUN] (start MemFS.interpreter_inside)
     = (Exit 1, State MemFS.interpreter_inside
                  [running_banner false "main.microscript";
                   executable_not_found "microscript.exe"]).
Proof.
  split; [vm_compute; reflexivity|].
  destruct (run_interpreter_lookup [RUN] MemFS.interpreter_inside false "/work/demo"
              "/work/demo/src/main.microscript" "main.microscript"
              (start MemFS.interpreter_inside))
    as ([_ Hfail] & _ & _).
  - vm_compute. reflexivity.
  - vm_compute. reflexivity.
  - apply Hfail. vm_compute. reflexivity.
Defined.

(** * Further properties of main.go *)

(** ** The config that [new] and [init] write *)
Module FreshConfig.
Import Regexp RegexpFacts ConfigFacts.

Lemma search_cons_None c s :
  match_here (String c s) = None ->
  search (String c s) =
    match search s with
    | Some (before, m, rest) => Some (String c before, m, rest)
    | None => None
    end.
Proof. intros Hm. by rewrite search_eq, Hm. Qed.

(** No attempt gets past a text without an equals sign that a double quote
    ends. *)
Lemma assign_no_equals v t :
  contains_byte "=" v = false -> assign (v +:+ String DQ t) = None.
Proof.
  induction v as [|c v IH]; [done|].
  rewrite contains_byte_cons, Str.app_cons, assign_cons.
  destruct (Ascii.eqb c "="); [done|]. intros Hv.
  destruct (is_space c); [by apply IH|done].
Qed.

Lemma trim_prefix_no_equals p v t :
  contains_byte DQ p = false -> contains_byte "=" v = false ->
  from_option assign None (trim_prefix p (v +:+ String DQ t)) = None.
Proof.
  revert v. induction p as [|a p IH]; intros v Hp Hv.
  - by apply assign_no_equals.
  - rewrite contains_byte_cons in Hp.
    destruct (Ascii.eqb a DQ) eqn:Ha; [done|].
    destruct v as [|c v].
    + rewrite Str.app_empty_l, trim_prefix_cons. by rewrite Ha.
    + rewrite contains_byte_cons in Hv. destruct (Ascii.eqb c "="); [done|].
      rewrite Str.app_cons, trim_prefix_cons.
      destruct (Ascii.eqb a c); [by apply IH|done].
Qed.

Lemma match_here_no_equals v t :
  contains_byte "=" v = false -> match_here (v +:+ String DQ t) = None.
Proof.
  intros Hv. rewrite match_here_from_option. by apply trim_prefix_no_equals.
Qed.

Lemma search_no_equals v t :
  contains_byte "=" v = false ->
  search (v +:+ String DQ t) =
    match search (String DQ t) with
    | Some (before, m, rest) => Some (v +:+ before, m, rest)
    | None => None
    end.
Proof.
  induction v as [|c v IH]; intros Hv.
  - rewrite Str.app_empty_l. by destruct (search (String DQ t)) as [[[b m] r]|].
  - pose proof (match_here_no_equals (String c v) t Hv) as Hm.
    rewrite contains_byte_cons in Hv. destruct (Ascii.eqb c "="); [done|].
    rewrite Str.app_cons in Hm |- *. rewrite (search_cons_None _ _ Hm), (IH Hv).
    by destruct (search (String DQ t)) as [[[b m] r]|].
Qed.

(** The text of the config up to the project name, and from the quote
    that closes the name to the assignment. *)
Lemma getBituinToml_split projectName :
  getBituinToml projectName
  = ("[package]" +:+ LF +:+ "name = " +:+ String DQ EmptyString)
    +:+ projectName
    +:+ String DQ (LF +:+ main_file_assignment "main.microscript").
Proof.
  unfold getBituinToml, quoted.
  rewrite (Str.app_assoc (String DQ projectName)). reflexivity.
Qed.

Lemma search_getBituinToml projectName :
  contains_byte "=" projectName = false ->
  search (getBituinToml projectName)
  = Some ("[package]" +:+ LF +:+ "name = " +:+ quoted projectName +:+ LF,
          written "main.microscript", EmptyString).
Proof.
  intros Hn. rewrite getBituinToml_split.
  change (("[package]" +:+ LF +:+ "name = " +:+ String DQ EmptyString)
          +:+ projectName +:+ String DQ (LF +:+ main_file_assignment "main.microscript"))
    with ("[package]" +:+ LF +:+ "name = " +:+ String DQ
            (projectName +:+ String DQ (LF +:+ main_file_assignment "main.microscript"))).
  assert (search (String DQ (LF +:+ main_file_assignment "main.microscript"))
          = Some (String DQ LF, written "main.microscript", EmptyString)) as Htail.
  { vm_compute. reflexivity. }
  assert (search (projectName
                  +:+ String DQ (LF +:+ main_file_assignment "main.microscript"))
          = Some (projectName +:+ String DQ LF, written "main.microscript",
                  EmptyString)) as Hname.
  { by rewrite (search_no_equals _ _ Hn), Htail. }
  change ("[package]" +:+ LF +:+ "name = " +:+ String DQ
            (projectName +:+ String DQ (LF +:+ main_file_assignment "main.microscript")))
    with (String "[" (String "p" (String "a" (String "c" (String "k"
          (String "a" (String "g" (String "e" (String "]" (String "010"
          (String "n" (String "a" (String "m" (String "e" (String " "
          (String "=" (String " " (String DQ
            (projectName +:+ String DQ
               (LF +:+ main_file_assignment "main.microscript")))))))))))))))))))).
  repeat (rewrite search_cons_None by reflexivity).
  rewrite Hname. f_equal. f_equal. f_equal. unfold quoted.
  rewrite !Str.app_assoc, !Str.app_cons. reflexivity.
Qed.

End FreshConfig.

(** X1. Writing a target and reading the config back: when the config has
    an assignment and the target has neither a double quote nor a dollar
    sign, the leftmost assignment of the rewritten text is the written one,
    so the value read back is src/ followed by the target. *)
Theorem rewrite_then_read (config F : string) :
  has_assignment config ->
  contains_byte DQ F = false -> contains_byte "$" F = false ->
  Regexp.FindStringSubmatch (updatedConfig config F) = Some (written F)
  /\ Regexp.group1 (written F) = "src/" +:+ F.
Proof.
  intros Has%ConfigFacts.FindStringSubmatch_Some Hq Hd. split; [|done].
  by apply ConfigFacts.FindStringSubmatch_updatedConfig.
Qed.

Lemma rewrite_then_read_witness :
  Regexp.FindStringSubmatch (updatedConfig two_assignments "x.microscript")
  = Some (written "x.microscript")
  /\ Regexp.group1 (written "x.microscript") = "src/" +:+ "x.microscript".
Proof.
  apply (rewrite_then_read two_assignments "x.microscript").
  - apply ConfigFacts.FindStringSubmatch_Some. vm_compute. discriminate.
  - reflexivity.
  - reflexivity.
Defined.

Lemma updatedConfig_twice (n : nat) (config F G : string) :
  (String.length config <= n)%nat ->
  contains_byte DQ F = false -> contains_byte "$" F = false ->
  contains_byte "$" G = false ->
  updatedConfig (updatedConfig config F) G = updatedConfig config G.
Proof.
  intros Hn Hq Hd Hg. revert config Hn.
  induction n as [|n IH]; intros config Hn.
  - destruct config; [done|simpl in Hn; lia].
  - destruct (Regexp.search config) as [[[b m] r]|] eqn:Hs.
    + rewrite (ConfigFacts.updatedConfig_eq (updatedConfig config F) G).
      rewrite (ConfigFacts.search_updatedConfig _ _ _ _ _ Hd Hq Hs).
      rewrite (ConfigFacts.updatedConfig_eq config G), Hs.
      rewrite !RegexpFacts.expand_plain by by apply ConfigFacts.assignment_plain.
      do 2 f_equal. apply IH.
      apply RegexpFacts.search_shorter in Hs. lia.
    + rewrite (ConfigFacts.updatedConfig_no_match config F); [done|].
      unfold Regexp.FindStringSubmatch. by rewrite Hs.
Qed.

(** X2. The last target wins: rewriting a config for the target [F] and
    then for [G] gives the text that rewriting for [G] alone gives ([F]
    without double quote and dollar sign, [G] without dollar sign). In
    particular the rewrite for one target, done twice, is the rewrite done
    once. *)
Theorem rewrite_last_wins (config F G : string) :
  contains_byte DQ F = false -> contains_byte "$" F = false ->
  contains_byte "$" G = false ->
  updatedConfig (updatedConfig config F) G = updatedConfig config G
  /\ updatedConfig (updatedConfig config F) F = updatedConfig config F.
Proof.
  intros Hq Hd Hg.
  split; by apply (updatedConfig_twice (String.length config)).
Qed.

Lemma rewrite_last_wins_witness :
  updatedConfig (updatedConfig two_assignments "x.microscript") "y.microscript"
  = updatedConfig two_assignments "y.microscript"
  /\ updatedConfig (updatedConfig two_assignments "x.microscript") "x.microscript"
     = updatedConfig two_assignments "x.microscript".
Proof.
  apply (rewrite_last_wins two_assignments "x.microscript" "y.microscript");
    reflexivity.
Defined.

(** X3. The config [getBituinToml] makes for a project name without an
    equals sign names src/main.microscript as its main file: that
    assignment is the leftmost one, and the only one. *)
Theorem fresh_config_main_file (projectName : string) :
  contains_byte "=" projectName = false ->
  Regexp.FindStringSubmatch (getBituinToml projectName)
  = Some (written "main.microscript")
  /\ occurrences (getBituinToml projectName) = [written "main.microscript"].
Proof.
  intros Hn. pose proof (FreshConfig.search_getBituinToml _ Hn) as Hs. split.
  - unfold Regexp.FindStringSubmatch. by rewrite Hs.
  - by rewrite ConfigFacts.occurrences_eq, Hs.
Qed.

Lemma fresh_config_main_file_witness :
  Regexp.FindStringSubmatch (getBituinToml "my project")
  = Some (written "main.microscript")
  /\ occurrences (getBituinToml "my project") = [written "main.microscript"].
Proof. apply (fresh_config_main_file "my project"). reflexivity. Defined.

(** X4. In a config as [getBituinToml] makes it, the rewrite for a target
    changes the value of the main_file line and nothing else: the package
    header and the name line stay as they are (project name without equals
    sign, target without dollar sign). *)
Theorem fresh_config_rewrite (projectName F : string) :
  contains_byte "=" projectName = false -> contains_byte "$" F = false ->
  updatedConfig (getBituinToml projectName) F
  = "[package]" +:+ LF +:+ "name = " +:+ quoted projectName +:+ LF
    +:+ main_file_assignment F.
Proof.
  intros Hn Hd.
  rewrite ConfigFacts.updatedConfig_eq, (FreshConfig.search_getBituinToml _ Hn).
  rewrite RegexpFacts.expand_plain by by apply ConfigFacts.assignment_plain.
  rewrite (ConfigFacts.updatedConfig_no_match EmptyString F) by reflexivity.
  by rewrite Str.app_empty_r, !Str.app_assoc.
Qed.

Lemma fresh_config_rewrite_witness :
  updatedConfig (getBituinToml "demo") "extra.microscript"
  = "[package]" +:+ LF +:+ "name = " +:+ quoted "demo" +:+ LF
    +:+ main_file_assignment "extra.microscript".
Proof. apply (fresh_config_rewrite "demo" "extra.microscript"); reflexivity. Defined.

(** X5. What [FindStringSubmatch] finds in a config is the leftmost
    assignment: the text splits into a part before the match at no place
    of which a match starts, the match, and the rest; the match is the word
    main_file, spaces, an equals sign, spaces and the value between double
    quotes; the value is not empty and has no double quote in it. *)
Theorem found_main_file_shape (config : string) (m : Regexp.submatch) :
  Regexp.FindStringSubmatch config = Some m ->
  exists before w1 w2 after,
    config = before +:+ Regexp.whole m +:+ after
    /\ Regexp.whole m
       = Regexp.literal +:+ w1 +:+ String "=" (w2 +:+ quoted (Regexp.group1 m))
    /\ all_space w1 = true /\ all_space w2 = true
    /\ Regexp.group1 m <> EmptyString
    /\ contains_byte DQ (Regexp.group1 m) = false
    /\ (forall b1 b2, before = b1 +:+ b2 -> b2 <> EmptyString ->
        Regexp.match_here (b2 +:+ Regexp.whole m +:+ after) = None).
Proof.
  unfold Regexp.FindStringSubmatch.
  destruct (Regexp.search config) as [[[b m'] r]|] eqn:Hs; [|done].
  intros [= ->].
  assert (forall s before rest,
            Regexp.search s = Some (before, m, rest) ->
            forall b1 b2 t, s = (b1 +:+ b2) +:+ t -> before = b1 +:+ b2 ->
              b2 <> EmptyString -> Regexp.match_here (b2 +:+ t) = None) as Hleft.
  { intros s before rest Hsearch b1. revert s before Hsearch.
    induction b1 as [|c b1 IH]; intros s before Hsearch b2 t -> -> Hb2.
    - rewrite !Str.app_empty_l in *. rewrite RegexpFacts.search_eq in Hsearch.
      destruct (Regexp.match_here (b2 +:+ t)) as [[cap r']|]; [|done].
      injection Hsearch as Hb _ _. by destruct Hb2.
    - rewrite !Str.app_cons, RegexpFacts.search_eq in Hsearch.
      destruct (Regexp.match_here _) as [[cap r']|]; [done|].
      destruct (Regexp.search ((b1 +:+ b2) +:+ t)) as [[[b' m''] r'']|] eqn:Hs';
        [|done].
      injection Hsearch as -> -> ->.
      by eapply IH. }
  pose proof (RegexpFacts.search_Some _ _ _ _ Hs) as (t & -> & Ht & Hw).
  pose proof Ht as (w1 & w2 & -> & Hw1 & Hw2 & Hne & Hq)%RegexpFacts.match_here_Some.
  assert (Regexp.whole m
          = Regexp.literal +:+ w1 +:+ String "=" (w2 +:+ quoted (Regexp.group1 m)))
    as Hwhole.
  { rewrite Hw.
    replace (Regexp.literal +:+ w1 +:+ String "=" (w2 +:+ quoted (Regexp.group1 m) +:+ r))
      with ((Regexp.literal +:+ w1 +:+ String "=" (w2 +:+ quoted (Regexp.group1 m))) +:+ r).
    - apply RegexpFacts.take_bytes_app.
    - by rewrite !Str.app_assoc, !Str.app_cons, !Str.app_assoc. }
  exists b, w1, w2, r. split_and!; try done.
  - rewrite Hwhole. by rewrite !Str.app_assoc, !Str.app_cons, !Str.app_assoc.
  - intros b1 b2 -> Hb2. rewrite Hwhole.
    replace ((Regexp.literal +:+ w1 +:+ String "=" (w2 +:+ quoted (Regexp.group1 m))) +:+ r)
      with (Regexp.literal +:+ w1 +:+ String "=" (w2 +:+ quoted (Regexp.group1 m) +:+ r))
      by (by rewrite !Str.app_assoc, !Str.app_cons, !Str.app_assoc).
    eapply Hleft; [exact Hs|reflexivity|reflexivity|done].
Qed.

Lemma found_main_file_shape_witness :
  exists before w1 w2 after,
    getBituinToml "demo"
    = before +:+ Regexp.whole (written "main.microscript") +:+ after
    /\ Regexp.whole (written "main.microscript")
       = Regexp.literal +:+ w1
         +:+ String "=" (w2 +:+ quoted (Regexp.group1 (written "main.microscript")))
    /\ all_space w1 = true /\ all_space w2 = true
    /\ Regexp.group1 (written "main.microscript") <> EmptyString
    /\ contains_byte DQ (Regexp.group1 (written "main.microscript")) = false
    /\ (forall b1 b2, before = b1 +:+ b2 -> b2 <> EmptyString ->
        Regexp.match_here
          (b2 +:+ Regexp.whole (written "main.microscript") +:+ after) = None).
Proof.
  apply (found_main_file_shape (getBituinToml "demo") (written "main.microscript")).
  vm_compute. reflexivity.
Defined.

(** ** Creating projects and files *)

Section Scaffolding.
Context {World : Type} `{OS World}.

(** X6. [new] and [init] make the project in four steps: the project
    directory, its src directory, src/main.microscript with the starter
    program, bituin.toml with the config for the project name. [new] works
    in the directory of that name below the working directory, after
    finding nothing there; [init] works in the working directory and does
    not look first. When the four steps succeed the command returns (exit
    status 0) with the report, [init] without the cd line, and the config
    on disk is the generated one. *)
Theorem createProject_succeeds
    (projectName projectPath cwd : string) (isNew : bool) (w w1 w2 w3 w4 : World) :
  Getwd w = (cwd, None) ->
  projectPath = (if isNew then Join [cwd; projectName] else cwd) ->
  (isNew = true -> IsNotExist (Stat w projectPath) = true) ->
  MkdirAll w projectPath = (w1, None) ->
  MkdirAll w1 (Join [projectPath; "src"]) = (w2, None) ->
  WriteFile w2 (Join [projectPath; "src"; "main.microscript"]) MAIN_MICROSCRIPT
  = (w3, None) ->
  WriteFile w3 (Join [projectPath; "bituin.toml"]) (getBituinToml projectName)
  = (w4, None) ->
  createProject projectName isNew (start w)
  = (Next tt, State w4 (created_report projectName isNew))
  /\ (read_after_write ->
      ReadFile w4 (Join [projectPath; "bituin.toml"])
      = (getBituinToml projectName, None)).
Proof.
  intros Hcwd -> Hfree Hd1 Hd2 Hf1 Hf2. split; [|intros Hlaw; by eapply Hlaw].
  unfold createProject, createDirectoryStructure, createMainMicroscript,
    createBituinConfig, created_report.
  run_cmd. rewrite Hcwd. run_cmd.
  destruct isNew; run_cmd.
  - rewrite (Hfree eq_refl). cbn [negb mkdir_each]. run_cmd.
    rewrite Hd1. run_cmd. rewrite Hd2. run_cmd. rewrite Hf1. run_cmd.
    rewrite Hf2. run_cmd. reflexivity.
  - cbn [mkdir_each]. run_cmd.
    rewrite Hd1. run_cmd. rewrite Hd2. run_cmd. rewrite Hf1. run_cmd.
    rewrite Hf2. run_cmd. reflexivity.
Qed.

(** X7. [createProject] stops at the first step that fails, prints the
    error of that step and exits with status 1; the later steps are not
    tried and nothing that was made is removed: the world is the one the
    failing call left. *)
Theorem createProject_stops_at_failure
    (projectName projectPath cwd : string) (isNew : bool) (w : World) :
  Getwd w = (cwd, None) ->
  projectPath = (if isNew then Join [cwd; projectName] else cwd) ->
  (isNew = true -> IsNotExist (Stat w projectPath) = true) ->
  (forall w1 e,
     MkdirAll w projectPath = (w1, Some e) ->
     createProject projectName isNew (start w)
     = (Exit 1, State w1 ["Error creating directory structure: " +:+ Error e +:+ LF]))
  /\ (forall w1 w2 e,
      MkdirAll w projectPath = (w1, None) ->
      MkdirAll w1 (Join [projectPath; "src"]) = (w2, Some e) ->
      createProject projectName isNew (start w)
      = (Exit 1, State w2 ["Error creating directory structure: " +:+ Error e +:+ LF]))
  /\ (forall w1 w2 w3 e,
      MkdirAll w projectPath = (w1, None) ->
      MkdirAll w1 (Join [projectPath; "src"]) = (w2, None) ->
      WriteFile w2 (Join [projectPath; "src"; "main.microscript"]) MAIN_MICROSCRIPT
      = (w3, Some e) ->
      createProject projectName isNew (start w)
      = (Exit 1, State w3 ["Error creating main.microscript: " +:+ Error e +:+ LF]))
  /\ (forall w1 w2 w3 w4 e,
      MkdirAll w projectPath = (w1, None) ->
      MkdirAll w1 (Join [projectPath; "src"]) = (w2, None) ->
      WriteFile w2 (Join [projectPath; "src"; "main.microscript"]) MAIN_MICROSCRIPT
      = (w3, None) ->
      WriteFile w3 (Join [projectPath; "bituin.toml"]) (getBituinToml projectName)
      = (w4, Some e) ->
      createProject projectName isNew (start w)
      = (Exit 1, State w4 ["Error creating bituin.toml: " +:+ Error e +:+ LF])).
Proof.
  intros Hcwd -> Hfree.
  unfold createProject, createDirectoryStructure, createMainMicroscript,
    createBituinConfig.
  run_cmd. rewrite Hcwd. run_cmd.
  destruct isNew; run_cmd; [rewrite (Hfree eq_refl); cbn [negb]|];
    cbn [mkdir_each]; run_cmd; split_and!.
  all: intros; repeat match goal with
                      | Hc : _ = (_, _) |- _ => rewrite Hc; clear Hc; run_cmd
                      end; reflexivity.
Qed.

(** X8. In a project, [add F] makes the src directory if need be and writes
    the template to F below it, without looking whether F exists; it
    reports the file with the elapsed time and returns (exit status 0). The
    file then reads back as the template, whatever it held before. *)
Theorem add_creates_file (filename cwd : string) (w w1 w2 : World) :
  Getwd w = (cwd, None) ->
  IsNotExist (Stat w (Join [cwd; "bituin.toml"])) = false ->
  MkdirAll w (Join [cwd; "src"]) = (w1, None) ->
  WriteFile w1 (Join [Join [cwd; "src"]; filename]) add_template = (w2, None) ->
  main [ADD; filename] (start w)
  = (Next tt, State w2 ["[" +:+ Seconds w2 +:+ "s] Create file: " +:+ filename +:+ LF])
  /\ (read_after_write ->
      ReadFile w2 (Join [Join [cwd; "src"]; filename]) = (add_template, None)).
Proof.
  intros Hcwd Hstat Hdir Hfile. split; [|intros Hlaw; by eapply Hlaw].
  rewrite main_add. unfold addMicroscriptFile.
  run_cmd. rewrite Hcwd. run_cmd. rewrite Hstat. run_cmd.
  rewrite Hdir. run_cmd. rewrite Hfile. run_cmd. reflexivity.
Qed.

(** X9. In a project, [add F] that cannot make the src directory, or cannot
    write the file, prints the error and exits with status 1. When the
    write fails the src directory the command made stays. *)
Theorem add_stops_at_failure (filename cwd : string) (w : World) :
  Getwd w = (cwd, None) ->
  IsNotExist (Stat w (Join [cwd; "bituin.toml"])) = false ->
  (forall w1 e,
     MkdirAll w (Join [cwd; "src"]) = (w1, Some e) ->
     main [ADD; filename] (start w)
     = (Exit 1, State w1 ["Error creating src directory: " +:+ Error e +:+ LF]))
  /\ (forall w1 w2 e,
      MkdirAll w (Join [cwd; "src"]) = (w1, None) ->
      WriteFile w1 (Join [Join [cwd; "src"]; filename]) add_template = (w2, Some e) ->
      main [ADD; filename] (start w)
      = (Exit 1, State w2 ["Error creating MicroScript file: " +:+ Error e +:+ LF])).
Proof.
  intros Hcwd Hstat. rewrite main_add. unfold addMicroscriptFile.
  run_cmd. rewrite Hcwd. run_cmd. rewrite Hstat. run_cmd. split.
  - intros w1 e Hdir. rewrite Hdir. run_cmd. reflexivity.
  - intros w1 w2 e Hdir Hfile. rewrite Hdir. run_cmd. rewrite Hfile. run_cmd.
    reflexivity.
Qed.

(** X10. When the working directory cannot be found, each of [new], [init],
    [add] and [run] prints the error and exits with status 1, the world
    untouched, whatever its arguments. *)
Theorem commands_need_working_directory
    (dir a : string) (e : error) (rest : list string) (w : World) :
  Getwd w = (dir, Some e) ->
  main (NEW :: a :: rest) (start w)
  = (Exit 1, State w ["Error: " +:+ Error e +:+ LF])
  /\ main (INIT :: a :: rest) (start w)
     = (Exit 1, State w ["Error: " +:+ Error e +:+ LF])
  /\ main (ADD :: a :: rest) (start w)
     = (Exit 1, State w ["Error: " +:+ Error e +:+ LF])
  /\ main (RUN :: rest) (start w)
     = (Exit 1, State w ["Error: " +:+ Error e +:+ LF]).
Proof.
  intros Hcwd. rewrite main_new, main_init, main_add, main_run.
  unfold createProject, addMicroscriptFile, runProject, runProject_entry.
  destruct (parse_run_args (RUN :: rest)) as [isPreview targetFile].
  run_cmd. rewrite Hcwd. run_cmd. done.
Qed.

End Scaffolding.

(** ** Running a project *)

Section Runner.
Context {World : Type} `{OS World}.

(** X11. Outside a project (no bituin.toml in the working directory) [run]
    prints that the config was not found and exits with status 1, the world
    untouched: a target on the command line is not written anywhere. *)
Theorem run_outside_project (rest : list string) (cwd : string) (w : World) :
  Getwd w = (cwd, None) ->
  IsNotExist (Stat w (Join [cwd; "bituin.toml"])) = true ->
  main (RUN :: rest) (start w)
  = (Exit 1,
     State w ["Error: bituin.toml not found. Are you in a bituin project directory?"
              +:+ LF]).
Proof.
  intros Hcwd Hstat. rewrite main_run. unfold runProject, runProject_entry.
  destruct (parse_run_args (RUN :: rest)) as [isPreview targetFile].
  run_cmd. rewrite Hcwd. run_cmd. rewrite Hstat. run_cmd. reflexivity.
Qed.

(** X12. A config that cannot be read, or cannot be written back when a
    target (without dollar sign) is given, ends the run with the error and
    status 1 before the main file is looked for: after a failed read the
    world is untouched, after a failed write it is the world the write
    left. *)
Theorem run_config_io_failure
    (args : list string) (cwd : string) (isPreview : bool) (targetFile : string)
    (w : World) :
  parse_run_args args = (isPreview, targetFile) ->
  Getwd w = (cwd, None) ->
  IsNotExist (Stat w (Join [cwd; "bituin.toml"])) = false ->
  (forall data e,
     ReadFile w (Join [cwd; "bituin.toml"]) = (data, Some e) ->
     runProject args (start w)
     = (Exit 1, State w ["Error reading bituin.toml: " +:+ Error e +:+ LF]))
  /\ (forall config w' e,
      targetFile <> EmptyString ->
      contains_byte "$" targetFile = false ->
      ReadFile w (Join [cwd; "bituin.toml"]) = (config, None) ->
      WriteFile w (Join [cwd; "bituin.toml"]) (updatedConfig config targetFile)
      = (w', Some e) ->
      runProject args (start w)
      = (Exit 1, State w' ["Error updating bituin.toml: " +:+ Error e +:+ LF])).
Proof.
  intros Hp Hcwd Hstat. unfold runProject, runProject_entry. rewrite Hp.
  run_cmd. rewrite Hcwd. run_cmd. rewrite Hstat. run_cmd. split.
  - intros data e Hread. rewrite Hread. run_cmd. reflexivity.
  - intros config w' e HF%String.eqb_neq _ Hread Hwrite. rewrite Hread. run_cmd.
    unfold determine_main_file. rewrite HF. cbn [negb]. run_cmd.
    rewrite Hwrite. run_cmd. reflexivity.
Qed.

(** X13. Without a target on the command line, [run] changes nothing
    before it starts the interpreter: however the steps up to the main file
    end, the world is the one the run began in. *)
Theorem run_without_target_writes_nothing (args : list string) (w : World) :
  snd (parse_run_args args) = EmptyString ->
  world (snd (runProject_entry args (start w))) = w.
Proof.
  unfold runProject_entry.
  destruct (parse_run_args args) as [isPreview targetFile]. cbn [snd].
  intros ->. run_cmd.
  destruct (Getwd w) as [cwd [e|]]; run_cmd; [done|].
  destruct (IsNotExist (Stat w (Join [cwd; "bituin.toml"]))); run_cmd; [done|].
  destruct (ReadFile w (Join [cwd; "bituin.toml"])) as [config [e|]]; run_cmd;
    [done|].
  unfold determine_main_file. cbn [String.eqb negb].
  destruct (Regexp.FindStringSubmatch config); run_cmd; done.
Qed.

(** X14. Without a target on the command line and with an assignment in
    the config, the main file is the value of the leftmost assignment
    joined to the working directory (not to src), and the name the run
    reports is the last element of that path; nothing is written. *)
Theorem run_main_file_from_config
    (args : list string) (w : World) (cwd config : string) (isPreview : bool)
    (m : Regexp.submatch) :
  parse_run_args args = (isPreview, EmptyString) ->
  readable_project w cwd config ->
  Regexp.FindStringSubmatch config = Some m ->
  runProject_entry args (start w)
  = (Next (isPreview, cwd, Join [cwd; Regexp.group1 m],
           Base (Join [cwd; Regexp.group1 m])), start w).
Proof.
  intros Hp Hw Hm. rewrite (runProject_entry_readable _ _ _ _ _ _ Hp Hw).
  unfold determine_main_file. cbn [String.eqb negb]. by rewrite Hm.
Qed.

(** X15. A project as [new] or [init] writes it (project name without
    equals sign) runs src/main.microscript below the working directory when
    [run] gets no target. *)
Theorem run_fresh_project
    (args : list string) (w : World) (cwd projectName : string) (isPreview : bool) :
  parse_run_args args = (isPreview, EmptyString) ->
  readable_project w cwd (getBituinToml projectName) ->
  contains_byte "=" projectName = false ->
  runProject args (start w)
  = runProject_execute isPreview cwd (Join [cwd; "src/main.microscript"])
      (Base (Join [cwd; "src/main.microscript"])) (start w).
Proof.
  intros Hp Hw Hn. apply runProject_after_entry.
  rewrite (runProject_entry_readable _ _ _ _ _ _ Hp Hw).
  unfold determine_main_file. cbn [String.eqb negb].
  unfold Regexp.FindStringSubmatch.
  by rewrite (FreshConfig.search_getBituinToml _ Hn).
Qed.


(** X17. Once the main file and the interpreter are found, the run starts
    the interpreter on [run] and the main file and waits for it. Its exit
    status is 0 exactly when the child ended without error, and 1
    otherwise; the world is the one the child left; after the banner it
    prints the report of the outcome and then, last, the output of the
    child as it is, unless that is empty. *)
Theorem run_reports_child
    (args : list string) (w w2 : World) (isPreview : bool)
    (cwd mainFile mainFileName output : string) (err : option error)
    (st : state World) :
  runProject_entry args (start w)
  = (Next (isPreview, cwd, mainFile, mainFileName), st) ->
  IsNotExist (Stat (world st) mainFile) = false ->
  IsNotExist (Stat (world st) (Join [cwd; ".."; executable_name isPreview])) = false ->
  CombinedOutput (world st) (Join [cwd; ".."; executable_name isPreview])
    ["run"; mainFile] = (w2, output, err) ->
  runProject args (start w)
  = (match err with Some _ => Exit 1 | None => Next tt end,
     State w2 (stdout st
               ++ running_banner isPreview mainFileName
                  :: child_report isPreview mainFileName (Seconds w2) err
               ++ (if (0 <? String.length output)%nat then [output] else [])))
  /\ (exit_status (fst (runProject args (start w))) = 0 <-> err = None).
Proof.
  intros He Hmain Hexe Hchild.
  assert (runProject args (start w)
          = (match err with Some _ => Exit 1 | None => Next tt end,
             State w2 (stdout st
               ++ running_banner isPreview mainFileName
                  :: child_report isPreview mainFileName (Seconds w2) err
               ++ (if (0 <? String.length output)%nat then [output] else []))))
    as Hrun.
  { rewrite (runProject_after_entry _ _ _ _ _ _ _ He).
    destruct st as [w1 out]. cbn [world stdout] in *.
    unfold runProject_execute, child_report. run_cmd. rewrite Hmain. run_cmd.
    rewrite Hexe. run_cmd. rewrite Hchild. run_cmd.
    destruct err as [e|]; destruct (0 <? String.length output)%nat;
      destruct isPreview; run_cmd; reflexivity. }
  split; [exact Hrun|]. rewrite Hrun. destruct err; cbn; split; done.
Qed.

(** X18. An empty argument is not a target, and it takes the place of any
    target before it: [run] with arguments that end in an empty one runs as
    [run] alone, or as [run --preview] when the flag is among them. *)
Theorem run_empty_argument (rest : list string) :
  runProject (RUN :: rest ++ [EmptyString])
  = runProject (if bool_decide (PREVIEW_FLAG ∈ rest)
                then [RUN; PREVIEW_FLAG] else [RUN]).
Proof.
  assert (parse_run_args (RUN :: rest ++ [EmptyString])
          = (bool_decide (PREVIEW_FLAG ∈ rest), EmptyString)) as Hl.
  { unfold parse_run_args. change (drop 1 (RUN :: rest ++ [EmptyString]))
      with (rest ++ [EmptyString]).
    rewrite scan_args_spec. cbn [orb]. f_equal.
    - apply bool_decide_ext. rewrite elem_of_app, list_elem_of_singleton.
      split; [intros [?|?]; done|by left].
    - rewrite filter_app, filter_cons_True, filter_nil by done.
      by rewrite last_snoc. }
  assert (parse_run_args (if bool_decide (PREVIEW_FLAG ∈ rest)
                          then [RUN; PREVIEW_FLAG] else [RUN])
          = (bool_decide (PREVIEW_FLAG ∈ rest), EmptyString)) as Hr.
  { by destruct (bool_decide (PREVIEW_FLAG ∈ rest)). }
  assert (parse_run_args (RUN :: rest ++ [EmptyString])
          = parse_run_args (if bool_decide (PREVIEW_FLAG ∈ rest)
                            then [RUN; PREVIEW_FLAG] else [RUN])) as Hp
    by (by rewrite Hl, Hr).
  unfold runProject, runProject_entry. by rewrite Hp.
Qed.

(** X21. The flag is never taken for the target: whatever the arguments,
    the target of the run is not the text of the preview flag, so a file of
    that name cannot be named on the command line. *)
Theorem target_is_never_the_flag (args : list string) :
  snd (parse_run_args args) <> PREVIEW_FLAG.
Proof.
  unfold parse_run_args. rewrite scan_args_spec. cbn [snd].
  destruct (last (filter (fun a => a <> PREVIEW_FLAG) (drop 1 args))) as [t|] eqn:Hl;
    [|done].
  apply last_Some_elem_of, list_elem_of_filter in Hl. cbn [default]. tauto.
Qed.

(** ** The dispatcher *)

(** X19. [help], [version] and [author] print the usage text, the version
    and the author, whatever follows them on the command line, and return
    (exit status 0) without a call to the operating system: the world is
    untouched. *)
Theorem main_prints_information (rest : list string) (w : World) :
  main (HELP :: rest) (start w) = (Next tt, State w usage_text)
  /\ main (VERSION_CMD :: rest) (start w) = (Next tt, State w [VERSION +:+ LF])
  /\ main (AUTHOR_CMD :: rest) (start w) = (Next tt, State w [AUTHOR +:+ LF]).
Proof.
  split_and!; [|reflexivity..].
  change (main (HELP :: rest) (start w)) with (printUsage (start w)).
  unfold printUsage. by rewrite print_all_app.
Qed.

(** X20. Without a command, and with a first argument that is none of the
    seven command words, [main] prints the usage text (after naming the
    unknown command) and exits with status 1, the world untouched. *)
Theorem main_rejects_unknown_command (command : string) (rest : list string) (w : World) :
  command ∉ [HELP; VERSION_CMD; AUTHOR_CMD; NEW; INIT; ADD; RUN] ->
  main [] (start w) = (Exit 1, State w usage_text)
  /\ main (command :: rest) (start w)
     = (Exit 1, State w (("Unknown command: " +:+ command +:+ LF) :: usage_text)).
Proof.
  intros Hc. split.
  - unfold main, printUsage. run_cmd. rewrite print_all_app. reflexivity.
  - unfold main.
    repeat match goal with
           | |- context [String.eqb command ?c] =>
               destruct (String.eqb_spec command c) as [->|_];
                 [exfalso; apply Hc; set_solver|]
           end.
    unfold printUsage. run_cmd. rewrite print_all_app. reflexivity.
Qed.

End Runner.

(** ** The further properties on concrete worlds *)

Lemma createProject_succeeds_witness :
  createProject "a" true (start MemFS.empty_dir)
  = (Next tt, State MemCases.new_4 (created_report "a" true))
  /\ MemFS.ReadFile MemCases.new_4 "/work/a/bituin.toml" = (getBituinToml "a", None).
Proof.
  destruct (createProject_succeeds "a" "/work/a" "/work" true MemFS.empty_dir
              MemCases.new_1 MemCases.new_2 MemCases.new_3 MemCases.new_4)
    as [Hrun Hread]; [vm_compute; reflexivity..|].
  split; [exact Hrun|exact (Hread MemFS_read_after_write)].
Defined.

Lemma createProject_stops_at_failure_witness :
  createProject "demo" false (start MemCases.src_is_file)
  = (Exit 1, State MemCases.src_is_file
               ["Error creating directory structure: not a directory" +:+ LF]).
Proof.
  destruct (createProject_stops_at_failure "demo" "/work/demo" "/work/demo" false
              MemCases.src_is_file)
    as (_ & Hsrc & _ & _);
    [vm_compute; reflexivity|vm_compute; reflexivity|discriminate|].
  apply (Hsrc MemCases.src_is_file MemCases.src_is_file MemFS.ENOTDIR);
    vm_compute; reflexivity.
Defined.

Lemma add_creates_file_witness :
  main [ADD; "util.microscript"] (start (MemFS.project (getBituinToml "demo")))
  = (Next tt, State MemCases.added
                ["[0.000s] Create file: util.microscript" +:+ LF])
  /\ MemFS.ReadFile MemCases.added "/work/demo/src/util.microscript"
     = (add_template, None).
Proof.
  destruct (add_creates_file "util.microscript" "/work/demo"
              (MemFS.project (getBituinToml "demo"))
              (MemFS.project (getBituinToml "demo")) MemCases.added)
    as [Hrun Hread]; [vm_compute; reflexivity..|].
  split; [exact Hrun|exact (Hread MemFS_read_after_write)].
Defined.

Lemma add_stops_at_failure_witness :
  main [ADD; "util.microscript"] (start MemCases.src_is_file)
  = (Exit 1, State MemCases.src_is_file
               ["Error creating src directory: not a directory" +:+ LF])
  /\ @main MemFS.fs MemCases.read_only [ADD; "util.microscript"]
       (start (MemFS.project (getBituinToml "demo")))
     = (Exit 1, State (MemFS.project (getBituinToml "demo"))
                  ["Error creating src directory: read-only file system" +:+ LF]).
Proof.
  split.
  - destruct (add_stops_at_failure "util.microscript" "/work/demo"
                MemCases.src_is_file) as [Hdir _]; [vm_compute; reflexivity..|].
    apply (Hdir MemCases.src_is_file MemFS.ENOTDIR). vm_compute. reflexivity.
  - destruct (@add_stops_at_failure MemFS.fs MemCases.read_only
                "util.microscript" "/work/demo"
                (MemFS.project (getBituinToml "demo"))) as [Hdir _];
      [vm_compute; reflexivity..|].
    apply (Hdir (MemFS.project (getBituinToml "demo")) MemCases.EROFS).
    reflexivity.
Defined.

Lemma commands_need_working_directory_witness :
  @main MemFS.fs MemCases.lost [NEW; "a"] (start MemFS.empty_dir)
  = (Exit 1, State MemFS.empty_dir ["Error: no such file or directory" +:+ LF])
  /\ @main MemFS.fs MemCases.lost [RUN; "x.microscript"] (start MemFS.empty_dir)
     = (Exit 1, State MemFS.empty_dir ["Error: no such file or directory" +:+ LF]).
Proof.
  split.
  - destruct (@commands_need_working_directory MemFS.fs MemCases.lost
                EmptyString "a" MemFS.ENOENT [] MemFS.empty_dir eq_refl)
      as (Hnew & _). exact Hnew.
  - destruct (@commands_need_working_directory MemFS.fs MemCases.lost
                EmptyString "a" MemFS.ENOENT ["x.microscript"] MemFS.empty_dir
                eq_refl)
      as (_ & _ & _ & Hrun). exact Hrun.
Defined.

Lemma run_outside_project_witness :
  main [RUN; "x.microscript"] (start MemFS.empty_dir)
  = (Exit 1,
     State MemFS.empty_dir
       ["Error: bituin.toml not found. Are you in a bituin project directory?"
        +:+ LF]).
Proof.
  apply (run_outside_project ["x.microscript"] "/work" MemFS.empty_dir);
    vm_compute; reflexivity.
Defined.

Lemma run_config_io_failure_witness :
  runProject [RUN] (start MemCases.config_is_dir)
  = (Exit 1, State MemCases.config_is_dir
               ["Error reading bituin.toml: is a directory" +:+ LF])
  /\ @runProject MemFS.fs MemCases.read_only [RUN; "x.microscript"]
       (start (MemFS.project (getBituinToml "demo")))
     = (Exit 1, State (MemFS.project (getBituinToml "demo"))
                  ["Error updating bituin.toml: read-only file system" +:+ LF]).
Proof.
  split.
  - destruct (run_config_io_failure [RUN] "/work/demo" false EmptyString
                MemCases.config_is_dir) as [Hread _];
      [vm_compute; reflexivity..|].
    apply (Hread EmptyString MemFS.EISDIR). vm_compute. reflexivity.
  - destruct (@run_config_io_failure MemFS.fs MemCases.read_only
                [RUN; "x.microscript"] "/work/demo" false "x.microscript"
                (MemFS.project (getBituinToml "demo"))) as [_ Hwrite];
      [vm_compute; reflexivity..|].
    apply (Hwrite (getBituinToml "demo") (MemFS.project (getBituinToml "demo"))
             MemCases.EROFS).
    + discriminate.
    + reflexivity.
    + vm_compute. reflexivity.
    + reflexivity.
Defined.

Lemma run_without_target_writes_nothing_witness :
  world (snd (runProject_entry [RUN; PREVIEW_FLAG]
                (start (MemFS.project two_assignments))))
  = MemFS.project two_assignments.
Proof.
  apply (run_without_target_writes_nothing [RUN; PREVIEW_FLAG]
           (MemFS.project two_assignments)).
  reflexivity.
Defined.

Lemma run_main_file_from_config_witness :
  runProject_entry [RUN] (start (MemFS.project two_assignments))
  = (Next (false, "/work/demo", "/work/demo/src/a.microscript", "a.microscript"),
     start (MemFS.project two_assignments)).
Proof.
  pose proof (run_main_file_from_config [RUN] (MemFS.project two_assignments)
                "/work/demo" two_assignments false (written "a.microscript"))
    as Hentry.
  apply Hentry.
  - reflexivity.
  - split_and!; vm_compute; reflexivity.
  - vm_compute. reflexivity.
Defined.

Lemma run_fresh_project_witness :
  runProject [RUN] (start (MemFS.project (getBituinToml "demo")))
  = runProject_execute false "/work/demo" "/work/demo/src/main.microscript"
      "main.microscript" (start (MemFS.project (getBituinToml "demo"))).
Proof.
  pose proof (run_fresh_project [RUN] (MemFS.project (getBituinToml "demo"))
                "/work/demo" "demo" false) as Hrun.
  apply Hrun.
  - reflexivity.
  - split_and!; vm_compute; reflexivity.
  - reflexivity.
Defined.


Lemma run_reports_child_witness :
  runProject [RUN; PREVIEW_FLAG] (start (MemFS.project (getBituinToml "demo")))
  = (Next tt,
     State (MemFS.project (getBituinToml "demo"))
       ([running_banner true "main.microscript"]
        ++ child_report true "main.microscript" "0.000" None
        ++ ["Hello, preview!" +:+ LF]))
  /\ exit_status (fst (runProject [RUN; PREVIEW_FLAG]
                         (start (MemFS.project (getBituinToml "demo"))))) = 0.
Proof.
  destruct (run_reports_child [RUN; PREVIEW_FLAG]
              (MemFS.project (getBituinToml "demo"))
              (MemFS.project (getBituinToml "demo")) true "/work/demo"
              "/work/demo/src/main.microscript" "main.microscript"
              ("Hello, preview!" +:+ LF) None
              (start (MemFS.project (getBituinToml "demo"))))
    as [Hrun Hstatus]; [vm_compute; reflexivity..|].
  split; [exact Hrun|by apply Hstatus].
Defined.

Lemma main_rejects_unknown_command_witness :
  main ["build"; "now"] (start MemFS.empty_dir)
  = (Exit 1, State MemFS.empty_dir (("Unknown command: build" +:+ LF) :: usage_text)).
Proof.
  destruct (main_rejects_unknown_command (World := MemFS.fs) "build" ["now"]
              MemFS.empty_dir) as [_ Hunknown].
  - intros Hin. repeat (apply elem_of_cons in Hin as [Heq|Hin]; [discriminate Heq|]).
    by apply elem_of_nil in Hin.
  - exact Hunknown.
Defined.
